(** * ChromaDB GUI: the service layer, the document viewers and the
      placeholder embedding, embedded in Rocq.

    Sources embedded here:
    - [src/lib/chromadb-client.ts]: [SimpleEmbeddingFunction] and
      [ChromaDBService];
    - [src/components/documents/document-viewer.tsx]: the basic
      [DocumentViewer.fetchDocuments];
    - the enhanced document viewer (five search modes):
      [DocumentViewer.fetchDocuments] with [type] and [filters];
    - [src/types/chromadb.ts]: the record types.

    The remote vector database is not part of the repository.  It appears
    here as a [World]: a store of collections together with an oracle that
    says which remote calls fail, and an [Engine] that stands for the
    matching and ranking the database performs. *)

From stdpp Require Import base option list strings gmap pretty.
From Stdlib Require Import ZArith NArith Lia.

Open Scope string_scope.

(* ===================================================================== *)
(** ** JavaScript values                                                  *)
(* ===================================================================== *)

Module Js.

(** The JSON-like values that travel as metadata ([Record<string, any>]).
    Numbers are modelled by integers.  An object keeps its entries in
    [Object.entries] order. *)
#[warnings="-register-all"]
Inductive Value : Type :=
| Undefined
| Null
| Bool (b : bool)
| Num (z : Z)
| Str (s : string)
| Arr (items : list Value)
| Obj (entries : list (string * Value)).

(** [typeof v] *)
Definition typeof (v : Value) : string :=
  match v with
  | Undefined => "undefined"
  | Null => "object"
  | Bool _ => "boolean"
  | Num _ => "number"
  | Str _ => "string"
  | Arr _ => "object"
  | Obj _ => "object"
  end.

(** [Array.isArray(v)] *)
Definition isArray (v : Value) : bool :=
  match v with Arr _ => true | _ => false end.

(** What a [throw] carries: an [Error] with its message, or anything
    else ([error instanceof Error] is false). *)
Inductive Thrown : Type :=
| ErrorObj (message : string)
| NonError.

(** [error instanceof Error ? error.message : fallback] *)
Definition message_or (fallback : string) (e : Thrown) : string :=
  match e with
  | ErrorObj m => m
  | NonError => fallback
  end.

(** Truthiness of a string: only [''] is falsy. *)
Definition truthy_str (s : string) : bool :=
  negb (String.eqb s "").

(** [x || d] where [x] is a string, [null] or [undefined]. *)
Definition or_str (x : option string) (d : string) : string :=
  match x with
  | Some s => if truthy_str s then s else d
  | None => d
  end.

(** [x || undefined] where [x] is an object, [null] or [undefined]:
    every object, also [{}], is truthy. *)
Definition or_undefined {A : Type} (x : option A) : option A :=
  match x with
  | Some o => Some o
  | None => None
  end.

(** [x || d] where [x] is a number, [null] or [undefined]: [0] is falsy. *)
Definition or_num (x : option Z) (d : Z) : Z :=
  match x with
  | Some n => if Z.eqb n 0 then d else n
  | None => d
  end.

(** [a?.[i]] on an array that may be [null]/[undefined], whose entries
    may be [null] too: out of range reads give [undefined]. *)
Definition opt_index {A : Type} (a : option (list (option A))) (i : nat)
  : option A :=
  match a with
  | Some l => match l !! i with
              | Some x => x
              | None => None
              end
  | None => None
  end.

End Js.

Abbreviation Metadata := (list (string * Js.Value)).

(* ===================================================================== *)
(** ** The placeholder embedding function                                 *)
(* ===================================================================== *)

Module Embedding.

(** A JavaScript string is a sequence of UTF-16 code units;
    [text.charCodeAt(i)] is the [i]-th one. *)
Abbreviation Text := (list N).

(** The code units of an ASCII string. *)
Fixpoint code_units (s : string) : Text :=
  match s with
  | EmptyString => []
  | String a rest => Ascii.N_of_ascii a :: code_units rest
  end.

(** [embedding[k]] for [k] inside the array. *)
Definition read (embedding : list N) (k : nat) : N :=
  default 0%N (embedding !! k).

(** One turn of the loop body:
    [embedding[i % 1536] = (embedding[i % 1536] + text.charCodeAt(i)) % 1000] *)
Definition step (i : nat) (c : N) (embedding : list N) : list N :=
  <[i mod 1536 := ((read embedding (i mod 1536) + c) mod 1000)%N]> embedding.

(** [for (let i = 0; i < text.length; i++) ...], started at index [i]
    with the characters from [i] on still to read. *)
Fixpoint loop (i : nat) (rest : Text) (embedding : list N) : list N :=
  match rest with
  | [] => embedding
  | c :: rest' => loop (S i) rest' (step i c embedding)
  end.

(** The body of the [texts.map] callback. *)
Definition embed (text : Text) : list N :=
  loop 0 text (replicate 1536 0%N).

(** [SimpleEmbeddingFunction.generate] *)
Definition generate (texts : list Text) : list (list N) :=
  map embed texts.

(** Every entry is below 1000. *)
Definition bounded (e : list N) : Prop := Forall (fun x => (x < 1000)%N) e.

End Embedding.

(* ===================================================================== *)
(** ** Record types ([src/types/chromadb.ts])                             *)
(* ===================================================================== *)

(** A [where] / [whereDocument] filter object, keyed by field or operator. *)
Abbreviation Filter := (gmap string Js.Value).

Record ChromaConnection : Type := {
  conn_id : string;
  conn_name : string;
  conn_host : string;
  conn_port : Z;
  conn_connected : bool;
  conn_createdAt : Z
}.

Record Collection : Type := {
  col_id : string;
  col_name : string;
  col_count : nat;
  col_metadata : option Metadata;
  col_createdAt : Z
}.

Record Document : Type := {
  doc_id : string;
  doc_content : string;
  doc_metadata : option Metadata;
  doc_embedding : option (list Z)
}.

Record QueryResult : Type := {
  res_id : string;
  res_content : string;
  res_metadata : option Metadata;
  res_distance : Z
}.

(** The literal [getCollectionSchema] pushes for each metadata entry:
    [{name, type, nullable, sample}] (the array is typed [any[]]). *)
Record InferredField : Type := {
  fld_name : string;
  fld_type : string;
  fld_nullable : bool;
  fld_sample : Js.Value
}.

Record CollectionSchema : Type := {
  sch_name : string;
  sch_vectorDimension : Z;
  sch_distanceFunction : string;
  sch_fields : list InferredField
}.

Inductive Include : Type :=
| IncDocuments | IncEmbeddings | IncMetadatas | IncDistances.

Record QueryRequest : Type := {
  req_queryText : option string;
  req_queryVector : option (list Z);
  req_nResults : option Z;
  req_where : option Filter;
  req_whereDocument : option Filter;
  req_include : option (list Include)
}.

(* ===================================================================== *)
(** ** Effects: state, exceptions                                         *)
(* ===================================================================== *)

Inductive Outcome (A : Type) : Type :=
| Returned (a : A)
| Threw (e : Js.Thrown).
Arguments Returned {A} a.
Arguments Threw {A} e.

(** A computation over a state [S] that returns or throws. *)
Definition Eff (S A : Type) : Type := S -> Outcome A * S.

Definition ret {S A : Type} (a : A) : Eff S A :=
  fun s => (Returned a, s).

Definition throw {S A : Type} (e : Js.Thrown) : Eff S A :=
  fun s => (Threw e, s).

Definition bind {S A B : Type} (m : Eff S A) (k : A -> Eff S B) : Eff S B :=
  fun s =>
    match m s with
    | (Returned a, s') => k a s'
    | (Threw e, s') => (Threw e, s')
    end.

(** [try { m } catch (e) { handler e }] *)
Definition try_catch {S A : Type} (m : Eff S A) (handler : Js.Thrown -> Eff S A)
  : Eff S A :=
  fun s =>
    match m s with
    | (Returned a, s') => (Returned a, s')
    | (Threw e, s') => handler e s'
    end.

(** [try { m } finally { cleanup }] where [cleanup] does not throw. *)
Definition try_finally {S A : Type} (m : Eff S A) (cleanup : S -> S) : Eff S A :=
  fun s => let (o, s') := m s in (o, cleanup s').

(** Run a computation on the second component of a pair of states. *)
Definition lift {X S A : Type} (m : Eff S A) : Eff (X * S) A :=
  fun xs => let (o, s') := m (snd xs) in (o, (fst xs, s')).

(** Change the first component of a pair of states. *)
Definition modify {X S : Type} (f : X -> X) : Eff (X * S) unit :=
  fun xs => (Returned tt, (f (fst xs), snd xs)).

Declare Scope eff_scope.
Delimit Scope eff_scope with eff.
Notation "'let*' x := m 'in' k" := (bind m (fun x => k))
  (at level 10, x name, m at level 100, k at level 200, only parsing) : eff_scope.

(** The wrapper every service method puts around its body:
    [catch (error) { throw new Error(`<prefix>${error instanceof Error ?
    error.message : 'Unknown error'}`) }] *)
Definition rethrow {S A : Type} (prefix : string) (m : Eff S A) : Eff S A :=
  try_catch m
    (fun e => throw (Js.ErrorObj (prefix +:+ Js.message_or "Unknown error" e))).

(* ===================================================================== *)
(** ** The remote database and the browser environment                    *)
(* ===================================================================== *)

Module Remote.

(** [new ChromaClient({host, port, ssl})] *)
Record ChromaClient : Type := {
  cl_host : string;
  cl_port : Z;
  cl_ssl : bool
}.

(** One record of a remote collection. *)
Record StoredDoc : Type := {
  sd_id : string;
  sd_document : option string;
  sd_metadata : option Metadata
}.

Record RemoteCollection : Type := {
  rc_name : string;
  rc_metadata : option Metadata;
  rc_docs : list StoredDoc
}.

(** What [client.getCollection] and [client.listCollections] hand back. *)
Record Handle : Type := {
  h_name : string;
  h_metadata : option Metadata
}.

(** Arguments of [collection.get]. *)
Record GetArgs : Type := {
  ga_ids : option (list string);
  ga_where : option Filter;
  ga_whereDocument : option Filter;
  ga_limit : option nat;
  ga_offset : option Z
}.

(** Arguments of [collection.query]. *)
Record QueryArgs : Type := {
  qa_queryTexts : option (list string);
  qa_queryEmbeddings : option (list (list Z));
  qa_nResults : Z;
  qa_include : list Include;
  qa_where : option Filter;
  qa_whereDocument : option Filter
}.

(** Flat response of [collection.get]: one entry per record.  Every
    array may be missing, every document or metadata may be [null]. *)
Record GetResponse : Type := {
  gr_ids : option (list string);
  gr_documents : option (list (option string));
  gr_metadatas : option (list (option Metadata))
}.

(** Nested response of [collection.query]: one row per query. *)
Record QueryResponse : Type := {
  qr_ids : option (list (option (list string)));
  qr_documents : option (list (option (list (option string))));
  qr_metadatas : option (list (option (list (option Metadata))));
  qr_distances : option (list (option (list (option Z))))
}.

Inductive Call : Type :=
| Heartbeat (c : ChromaClient)
| ListCollections (c : ChromaClient)
| GetCollection (c : ChromaClient) (name : string)
| Count (name : string)
| Get (name : string) (args : GetArgs)
| Query (name : string) (args : QueryArgs)
| Add (name : string) (ids : list string) (documents : list string)
      (metadatas : list Metadata)
| Update (name : string) (ids : list string) (documents : list string)
         (metadatas : list Metadata)
| Delete (name : string) (ids : list string).

(** The parts of the database this development leaves open: how filters
    match, which neighbours a query finds, how an update merges, and the
    error raised for a collection that does not exist. *)
Record Engine : Type := {
  en_where : Filter -> StoredDoc -> bool;
  en_whereDocument : Filter -> StoredDoc -> bool;
  en_nearest : QueryArgs -> list StoredDoc -> list (list (StoredDoc * Z));
  en_update : list string -> list string -> list Metadata ->
              list StoredDoc -> list StoredDoc;
  en_missing : string -> Js.Thrown
}.

(** Everything outside the program: the database, the network and the
    browser's clock and random source. *)
Record World : Type := {
  collections : list RemoteCollection;
  fault : Call -> option Js.Thrown;
  engine : Engine;
  now : Z;
  random36 : string;
  calls : list Call
}.

Definition record_call (c : Call) (w : World) : World :=
  {| collections := collections w; fault := fault w; engine := engine w;
     now := now w; random36 := random36 w; calls := calls w ++ [c] |}.

Definition with_collections (cs : list RemoteCollection) (w : World) : World :=
  {| collections := cs; fault := fault w; engine := engine w;
     now := now w; random36 := random36 w; calls := calls w |}.

(** One remote call: it is logged, fails when the oracle says so, and is
    served from the store otherwise. *)
Definition rpc {A : Type} (c : Call)
    (serve : World -> Outcome (A * list RemoteCollection)) : Eff World A :=
  fun w =>
    match fault w c with
    | Some e => (Threw e, record_call c w)
    | None =>
        match serve w with
        | Returned (a, cs) => (Returned a, with_collections cs (record_call c w))
        | Threw e => (Threw e, record_call c w)
        end
    end.

(** [Date.now()] and [new Date()] *)
Definition clock : Eff World Z :=
  fun w => (Returned (now w), w).

(** [Math.random().toString(36).substr(2, 9)] *)
Definition random_suffix : Eff World string :=
  fun w => (Returned (random36 w), w).

Definition handle_of (c : RemoteCollection) : Handle :=
  {| h_name := rc_name c; h_metadata := rc_metadata c |}.

Definition find_collection (name : string) (cs : list RemoteCollection)
  : option RemoteCollection :=
  List.find (fun c => String.eqb (rc_name c) name) cs.

(** Replace the records of the first collection called [name]. *)
Fixpoint store_docs (name : string) (docs : list StoredDoc)
    (cs : list RemoteCollection) : list RemoteCollection :=
  match cs with
  | [] => []
  | c :: cs' =>
      if String.eqb (rc_name c) name
      then {| rc_name := rc_name c; rc_metadata := rc_metadata c;
              rc_docs := docs |} :: cs'
      else c :: store_docs name docs cs'
  end.

(** Serve a call that reads the collection called [name]. *)
Definition reading {A : Type} (name : string)
    (f : RemoteCollection -> World -> A)
  : World -> Outcome (A * list RemoteCollection) :=
  fun w =>
    match find_collection name (collections w) with
    | Some c => Returned (f c w, collections w)
    | None => Threw (en_missing (engine w) name)
    end.

(** Serve a call that rewrites the records of the collection called
    [name]. *)
Definition writing (name : string)
    (f : RemoteCollection -> World -> list StoredDoc)
  : World -> Outcome (unit * list RemoteCollection) :=
  fun w =>
    match find_collection name (collections w) with
    | Some c => Returned (tt, store_docs name (f c w) (collections w))
    | None => Threw (en_missing (engine w) name)
    end.

Definition has_id (ids : list string) (d : StoredDoc) : bool :=
  existsb (String.eqb (sd_id d)) ids.

(** The records a [get] selects: by ids, by filters, then the page. *)
Definition select (en : Engine) (a : GetArgs) (docs : list StoredDoc)
  : list StoredDoc :=
  let by_ids := match ga_ids a with
                | Some ids => List.filter (has_id ids) docs
                | None => docs
                end in
  let by_where := match ga_where a with
                  | Some f => List.filter (en_where en f) by_ids
                  | None => by_ids
                  end in
  let by_doc := match ga_whereDocument a with
                | Some f => List.filter (en_whereDocument en f) by_where
                | None => by_where
                end in
  let skipped := match ga_offset a with
                 | Some o => drop (Z.to_nat o) by_doc
                 | None => by_doc
                 end in
  match ga_limit a with
  | Some n => take n skipped
  | None => skipped
  end.

Definition flat_response (docs : list StoredDoc) : GetResponse :=
  {| gr_ids := Some (map sd_id docs);
     gr_documents := Some (map sd_document docs);
     gr_metadatas := Some (map sd_metadata docs) |}.

Definition included (i : Include) (l : list Include) : bool :=
  existsb (fun j => match i, j with
                    | IncDocuments, IncDocuments => true
                    | IncEmbeddings, IncEmbeddings => true
                    | IncMetadatas, IncMetadatas => true
                    | IncDistances, IncDistances => true
                    | _, _ => false
                    end) l.

Definition nested_response (inc : list Include)
    (rows : list (list (StoredDoc * Z))) : QueryResponse :=
  {| qr_ids := Some (map (fun r => Some (map (fun p => sd_id (fst p)) r)) rows);
     qr_documents :=
       if included IncDocuments inc
       then Some (map (fun r => Some (map (fun p => sd_document (fst p)) r)) rows)
       else None;
     qr_metadatas :=
       if included IncMetadatas inc
       then Some (map (fun r => Some (map (fun p => sd_metadata (fst p)) r)) rows)
       else None;
     qr_distances :=
       if included IncDistances inc
       then Some (map (fun r => Some (map (fun p => Some (snd p)) r)) rows)
       else None |}.

(** A record is added unless its id is already taken. *)
Definition add_record (i : string) (d : string) (m : Metadata)
    (docs : list StoredDoc) : list StoredDoc :=
  if existsb (fun s => String.eqb (sd_id s) i) docs
  then docs
  else docs ++ [{| sd_id := i; sd_document := Some d; sd_metadata := Some m |}].

Fixpoint add_records (ids : list string) (documents : list string)
    (metadatas : list Metadata) (docs : list StoredDoc) : list StoredDoc :=
  match ids, documents, metadatas with
  | i :: ids', d :: documents', m :: metadatas' =>
      add_records ids' documents' metadatas' (add_record i d m docs)
  | _, _, _ => docs
  end.

(** *** The client API *)

Definition heartbeat (c : ChromaClient) : Eff World Z :=
  rpc (Heartbeat c) (fun w => Returned (now w, collections w)).

(** The client lists collections by pages; called without arguments, as
    the service calls it, it returns the first page, of at most
    [list_page] collections. *)
Definition list_page : nat := 100.

Definition listCollections (c : ChromaClient) : Eff World (list Handle) :=
  rpc (ListCollections c)
      (fun w => Returned (map handle_of (take list_page (collections w)),
                          collections w)).

Definition getCollection (c : ChromaClient) (name : string) : Eff World Handle :=
  rpc (GetCollection c name) (reading name (fun col _ => handle_of col)).

Definition count (h : Handle) : Eff World nat :=
  rpc (Count (h_name h))
      (reading (h_name h) (fun col _ => length (rc_docs col))).

Definition get (h : Handle) (a : GetArgs) : Eff World GetResponse :=
  rpc (Get (h_name h) a)
      (reading (h_name h)
         (fun col w => flat_response (select (engine w) a (rc_docs col)))).

Definition query (h : Handle) (a : QueryArgs) : Eff World QueryResponse :=
  rpc (Query (h_name h) a)
      (reading (h_name h)
         (fun col w =>
            nested_response (qa_include a)
              (en_nearest (engine w) a (rc_docs col)))).

(** The client checks the records of an add or an update before it sends
    them: a metadata object without keys is refused. *)
Definition refused_metadata (metadatas : list Metadata) : bool :=
  existsb (fun m => match m with [] => true | _ => false end) metadatas.

Definition add (h : Handle) (ids : list string) (documents : list string)
    (metadatas : list Metadata) : Eff World unit :=
  if refused_metadata metadatas
  then throw (Js.ErrorObj "Expected metadata to be non-empty")
  else rpc (Add (h_name h) ids documents metadatas)
           (writing (h_name h)
              (fun col _ => add_records ids documents metadatas (rc_docs col))).

Definition update (h : Handle) (ids : list string) (documents : list string)
    (metadatas : list Metadata) : Eff World unit :=
  if refused_metadata metadatas
  then throw (Js.ErrorObj "Expected metadata to be non-empty")
  else rpc (Update (h_name h) ids documents metadatas)
           (writing (h_name h)
              (fun col w =>
                 en_update (engine w) ids documents metadatas (rc_docs col))).

Definition delete (h : Handle) (ids : list string) : Eff World unit :=
  rpc (Delete (h_name h) ids)
      (writing (h_name h)
         (fun col _ => List.filter (fun d => negb (has_id ids d)) (rc_docs col))).

End Remote.

(* ===================================================================== *)
(** ** [ChromaDBService] ([src/lib/chromadb-client.ts])                   *)
(* ===================================================================== *)

Module Service.
Import Remote.
Local Open Scope eff_scope.

(** The two private fields of the singleton. *)
Record ChromaDBService : Type := {
  client : option ChromaClient;
  connection : option ChromaConnection
}.

(** [new ChromaDBService()] *)
Definition initial : ChromaDBService :=
  {| client := None; connection := None |}.

Definition set_client (c : option ChromaClient) (s : ChromaDBService)
  : ChromaDBService :=
  {| client := c; connection := connection s |}.

Definition set_connection (c : option ChromaConnection) (s : ChromaDBService)
  : ChromaDBService :=
  {| client := client s; connection := c |}.

(** [Omit<ChromaConnection, 'id' | 'connected' | 'createdAt'>] *)
Record ConnectionInfo : Type := {
  ci_name : string;
  ci_host : string;
  ci_port : Z
}.

Definition not_connected : Js.Thrown :=
  Js.ErrorObj "Not connected to ChromaDB".

(** [connect]: the whole body sits in the [try]. *)
Definition connect (info : ConnectionInfo)
  : Eff (ChromaDBService * World) ChromaConnection :=
  rethrow "Failed to connect to ChromaDB: "
    (let c := {| cl_host := ci_host info; cl_port := ci_port info;
                 cl_ssl := false |} in
     let* _ := modify (set_client (Some c)) in
     let* heartbeat_ := lift (heartbeat c) in
     let* stamp := lift clock in
     let* created := lift clock in
     let conn := {| conn_id := "conn_" +:+ pretty stamp;
                    conn_name := ci_name info;
                    conn_host := ci_host info;
                    conn_port := ci_port info;
                    conn_connected := true;
                    conn_createdAt := created |} in
     let* _ := modify (set_connection (Some conn)) in
     ret conn).

(** [disconnect] *)
Definition disconnect : Eff (ChromaDBService * World) unit :=
  let* _ := modify (set_client None) in
  modify (set_connection None).

(** [isConnected]:
    [this.client !== null && this.connection?.connected === true] *)
Definition isConnected (s : ChromaDBService) : bool :=
  match client s with
  | Some _ => match connection s with
              | Some c => conn_connected c
              | None => false
              end
  | None => false
  end.

(** [getConnection] *)
Definition getConnection (s : ChromaDBService) : option ChromaConnection :=
  connection s.

(** [getClient] *)
Definition getClient (s : ChromaDBService) : option ChromaClient :=
  client s.

(** The guard that opens every operation below:
    [if (!this.client) throw new Error('Not connected to ChromaDB')] *)
Definition with_client {A : Type} (s : ChromaDBService)
    (body : ChromaClient -> Eff World A) : Eff World A :=
  match client s with
  | None => throw not_connected
  | Some c => body c
  end.

(** [getCollections] *)
Definition getCollections (s : ChromaDBService) : Eff World (list Collection) :=
  with_client s (fun c =>
    rethrow "Failed to fetch collections: "
      (let* cols := listCollections c in
       let* created := clock in
       ret (imap (fun index col =>
                    {| col_id := "collection_" +:+ pretty index;
                       col_name := h_name col;
                       col_count := 0;
                       col_metadata := h_metadata col;
                       col_createdAt := created |}) cols))).

(** [getCollectionDetails] *)
Definition getCollectionDetails (s : ChromaDBService) (collectionName : string)
  : Eff World Collection :=
  with_client s (fun c =>
    rethrow "Failed to get collection details: "
      (let* col := getCollection c collectionName in
       let* n := count col in
       let* created := clock in
       ret {| col_id := "collection_" +:+ collectionName;
              col_name := collectionName;
              col_count := n;
              col_metadata := Js.or_undefined (h_metadata col);
              col_createdAt := created |})).

(** The [Object.entries(metadata).forEach] of [getCollectionSchema]:
    [type: typeof value, nullable: value === null]. *)
Definition field_of (entry : string * Js.Value) : InferredField :=
  {| fld_name := fst entry;
     fld_type := Js.typeof (snd entry);
     fld_nullable := match snd entry with Js.Null => true | _ => false end;
     fld_sample := snd entry |}.

(** The fields inferred from the sampled response. *)
Definition infer_fields (results : GetResponse) : list InferredField :=
  match gr_metadatas results with
  | Some metadatas =>
      if (0 <? length metadatas)%nat
      then match metadatas !! 0%nat with
           | Some (Some metadata) => map field_of metadata
           | _ => []
           end
      else []
  | None => []
  end.

Definition sample_args : GetArgs :=
  {| ga_ids := None; ga_where := None; ga_whereDocument := None;
     ga_limit := Some 1%nat; ga_offset := None |}.

(** [getCollectionSchema] *)
Definition getCollectionSchema (s : ChromaDBService) (collectionName : string)
  : Eff World CollectionSchema :=
  with_client s (fun c =>
    rethrow "Failed to get collection schema: "
      (let* col := getCollection c collectionName in
       let* results := get col sample_args in
       ret {| sch_name := collectionName;
              sch_vectorDimension := 1536;
              sch_distanceFunction := "cosine";
              sch_fields := infer_fields results |})).

(** [results.ids[0][i]], [results.documents?.[0]?.[i]] and the like. *)
Definition row0 {A : Type} (a : option (list (option (list A))))
  : option (list A) :=
  Js.opt_index a 0.

Definition cell {A : Type} (a : option (list (option (list (option A)))))
    (i : nat) : option A :=
  Js.opt_index (row0 a) i.

(** The [for] loop of [queryCollection], at index [i] with the ids from
    [i] on still to visit; [out] is [queryResults]. *)
Fixpoint query_loop (results : QueryResponse) (i : nat) (ids : list string)
    (out : list QueryResult) : list QueryResult :=
  match ids with
  | [] => out
  | id_ :: ids' =>
      query_loop results (S i) ids'
        (out ++ [{| res_id := id_;
                    res_content := Js.or_str (cell (qr_documents results) i) "";
                    res_metadata := Js.or_undefined (cell (qr_metadatas results) i);
                    res_distance := Js.or_num (cell (qr_distances results) i) 0 |}])
  end.

(** [if (results.ids && results.ids[0]) { for ... }] *)
Definition query_results (results : QueryResponse) : list QueryResult :=
  match row0 (qr_ids results) with
  | Some ids => query_loop results 0 ids []
  | None => []
  end.

(** The [queryOptions] object built from the request. *)
Definition query_options (q : QueryRequest) : QueryArgs :=
  {| qa_nResults := match req_nResults q with
                    | Some n => if Z.eqb n 0 then 10 else n
                    | None => 10
                    end;
     qa_include := match req_include q with
                   | Some inc => inc
                   | None => [IncDocuments; IncMetadatas; IncDistances]
                   end;
     qa_queryTexts := match req_queryText q with
                      | Some t => if Js.truthy_str t then Some [t] else None
                      | None => None
                      end;
     qa_queryEmbeddings := match req_queryVector q with
                           | Some v => Some [v]
                           | None => None
                           end;
     qa_where := req_where q;
     qa_whereDocument := req_whereDocument q |}.

(** [queryCollection] *)
Definition queryCollection (s : ChromaDBService) (collectionName : string)
    (queryRequest : QueryRequest) : Eff World (list QueryResult) :=
  with_client s (fun c =>
    rethrow "Failed to query collection: "
      (let* col := getCollection c collectionName in
       let* results := query col (query_options queryRequest) in
       ret (query_results results))).

(** [Omit<Document, 'id'>] *)
Record NewDocument : Type := {
  nd_content : string;
  nd_metadata : option Metadata;
  nd_embedding : option (list Z)
}.

(** [document.metadata || {}] *)
Definition metadata_or_empty (m : option Metadata) : Metadata :=
  match m with
  | Some o => o
  | None => []
  end.

(** [addDocument] *)
Definition addDocument (s : ChromaDBService) (collectionName : string)
    (document : NewDocument) : Eff World string :=
  with_client s (fun c =>
    rethrow "Failed to add document: "
      (let* col := getCollection c collectionName in
       let* stamp := clock in
       let* suffix := random_suffix in
       let id_ := "doc_" +:+ pretty stamp +:+ "_" +:+ suffix in
       let* _ := add col [id_] [nd_content document]
                     [metadata_or_empty (nd_metadata document)] in
       ret id_)).

(** [updateDocument] *)
Definition updateDocument (s : ChromaDBService) (collectionName : string)
    (document : Document) : Eff World unit :=
  with_client s (fun c =>
    rethrow "Failed to update document: "
      (let* col := getCollection c collectionName in
       update col [doc_id document] [doc_content document]
              [metadata_or_empty (doc_metadata document)])).

(** [deleteDocument] *)
Definition deleteDocument (s : ChromaDBService) (collectionName : string)
    (documentId : string) : Eff World unit :=
  with_client s (fun c =>
    rethrow "Failed to delete document: "
      (let* col := getCollection c collectionName in
       delete col [documentId])).

(** [inferFieldType] (private; no method calls it) *)
Definition inferFieldType (value : Js.Value) : string :=
  if Js.isArray value then "array"
  else if String.eqb (Js.typeof value) "object"
          && negb (match value with Js.Null => true | _ => false end)
       then "object"
  else if String.eqb (Js.typeof value) "string" then "string"
  else if String.eqb (Js.typeof value) "number" then "number"
  else if String.eqb (Js.typeof value) "boolean" then "boolean"
  else "string".

End Service.

(* ===================================================================== *)
(** ** Result normalization (the loops every component repeats)           *)
(* ===================================================================== *)

Module Normalize.
Import Remote.

(** The [Document] literal built from a flat ([get]) response at [i]:
    [{id: results.ids[i], content: results.documents?.[i] || '',
      metadata: results.metadatas?.[i] || undefined}] *)
Definition flat_document (results : GetResponse) (i : nat) (id_ : string)
  : Document :=
  {| doc_id := id_;
     doc_content := Js.or_str (Js.opt_index (gr_documents results) i) "";
     doc_metadata := Js.or_undefined (Js.opt_index (gr_metadatas results) i);
     doc_embedding := None |}.

(** [for (let i = 0; i < results.ids.length; i++) docs.push(...)], at
    index [i] with the ids from [i] on still to visit. *)
Fixpoint flat_loop (results : GetResponse) (i : nat) (ids : list string)
    (docs : list Document) : list Document :=
  match ids with
  | [] => docs
  | id_ :: ids' =>
      flat_loop results (S i) ids' (docs ++ [flat_document results i id_])
  end.

(** [if (results.ids && results.ids.length > 0) { for ... }] *)
Definition flat_documents (results : GetResponse) : list Document :=
  match gr_ids results with
  | Some ids => if (0 <? length ids)%nat
                then flat_loop results 0 ids []
                else []
  | None => []
  end.

(** The [Document] literal built from a nested ([query]) response:
    [{id: results.ids[0][i], content: results.documents?.[0]?.[i] || '',
      metadata: results.metadatas?.[0]?.[i] || undefined}] *)
Definition nested_document (results : QueryResponse) (i : nat) (id_ : string)
  : Document :=
  {| doc_id := id_;
     doc_content := Js.or_str (Service.cell (qr_documents results) i) "";
     doc_metadata := Js.or_undefined (Service.cell (qr_metadatas results) i);
     doc_embedding := None |}.

Fixpoint nested_loop (results : QueryResponse) (i : nat) (ids : list string)
    (docs : list Document) : list Document :=
  match ids with
  | [] => docs
  | id_ :: ids' =>
      nested_loop results (S i) ids' (docs ++ [nested_document results i id_])
  end.

(** [if (results.ids && results.ids[0]) { for ... }] *)
Definition nested_documents (results : QueryResponse) : list Document :=
  match Service.row0 (qr_ids results) with
  | Some ids => nested_loop results 0 ids []
  | None => []
  end.

(** The basic viewer tests [results.ids.length > 0] as well. *)
Definition nested_documents_guarded (results : QueryResponse)
  : list Document :=
  match qr_ids results with
  | Some rows => if (0 <? length rows)%nat
                 then nested_documents results
                 else []
  | None => []
  end.

End Normalize.

(* ===================================================================== *)
(** ** The document viewers                                               *)
(* ===================================================================== *)

(** The React state [fetchDocuments] writes. *)
Record ViewerState : Type := {
  documents : list Document;
  loading : bool;
  error : option string;
  totalDocuments : nat
}.

Definition setDocuments (d : list Document) (v : ViewerState) : ViewerState :=
  {| documents := d; loading := loading v; error := error v;
     totalDocuments := totalDocuments v |}.

Definition setLoading (b : bool) (v : ViewerState) : ViewerState :=
  {| documents := documents v; loading := b; error := error v;
     totalDocuments := totalDocuments v |}.

Definition setError (e : option string) (v : ViewerState) : ViewerState :=
  {| documents := documents v; loading := loading v; error := e;
     totalDocuments := totalDocuments v |}.

Definition setTotalDocuments (n : nat) (v : ViewerState) : ViewerState :=
  {| documents := documents v; loading := loading v; error := error v;
     totalDocuments := n |}.

Definition documentsPerPage : nat := 20.

(** [chromaDBService.getClient()?.getCollection(...)] followed by
    [if (!collection) throw new Error('Collection not found')] *)
Definition open_collection {X : Type} (s : Service.ChromaDBService)
    (collectionName : string) : Eff (X * Remote.World) Remote.Handle :=
  match Service.getClient s with
  | Some c => lift (Remote.getCollection c collectionName)
  | None => throw (Js.ErrorObj "Collection not found")
  end.

(** The frame around both [fetchDocuments]: [setLoading(true);
    setError(null); try { body } catch (err) { setError(...) }
    finally { setLoading(false) }] *)
Definition fetch_frame (body : Eff (ViewerState * Remote.World) unit)
  : ViewerState * Remote.World -> ViewerState * Remote.World :=
  fun s =>
    let started := (setError None (setLoading true (fst s)), snd s) in
    let protected :=
      try_catch body
        (fun err => modify (setError
                      (Some (Js.message_or "Failed to fetch documents" err)))) in
    snd (try_finally protected
           (fun s' => (setLoading false (fst s'), snd s')) started).

(** [src/components/documents/document-viewer.tsx] *)
Module BasicViewer.
Import Remote.
Local Open Scope eff_scope.

Definition search_args (search : string) (limit : nat) : QueryArgs :=
  {| qa_queryTexts := Some [search];
     qa_queryEmbeddings := None;
     qa_nResults := Z.of_nat limit;
     qa_include := [IncDocuments; IncMetadatas; IncDistances];
     qa_where := None;
     qa_whereDocument := None |}.

Definition page_args (limit : nat) (offset : Z) : GetArgs :=
  {| ga_ids := None; ga_where := None; ga_whereDocument := None;
     ga_limit := Some limit; ga_offset := Some offset |}.

(** The body of the [try] of [fetchDocuments(page, search)]. *)
Definition fetch_body (s : Service.ChromaDBService) (collectionName : string)
    (page : Z) (search : string) : Eff (ViewerState * World) unit :=
  let* collection := open_collection s collectionName in
  let limit := documentsPerPage in
  let offset := ((page - 1) * Z.of_nat documentsPerPage)%Z in
  if Js.truthy_str search then
    let* results := lift (query collection (search_args search limit)) in
    let docs := Normalize.nested_documents_guarded results in
    let* _ := modify (setDocuments docs) in
    let* _ := modify (setTotalDocuments (length docs)) in
    modify (setLoading false)
  else
    let* results := lift (get collection (page_args limit offset)) in
    let docs := Normalize.flat_documents results in
    let* _ := modify (setDocuments docs) in
    let* n := lift (count collection) in
    modify (setTotalDocuments n).

(** [fetchDocuments] *)
Definition fetchDocuments (s : Service.ChromaDBService) (collectionName : string)
    (page : Z) (search : string)
  : ViewerState * World -> ViewerState * World :=
  fetch_frame (fetch_body s collectionName page search).

End BasicViewer.

(** The enhanced document viewer, with its five search modes. *)
Module EnhancedViewer.
Import Remote.
Local Open Scope eff_scope.

(** ['text' | 'semantic' | 'regex' | 'id' | 'metadata'] *)
Inductive SearchType : Type :=
| TextSearch | SemanticSearch | RegexSearch | IdSearch | MetadataSearch.

(** One row of the metadata filter form. *)
Record FilterClause : Type := {
  f_field : string;
  f_operator : string;
  f_value : string;
  f_type : string
}.

(** [whereClause[key] = v] on an object created by [{}]: the key
    ['__proto__'] reaches the prototype setter and adds no own
    property; every other key becomes (or overwrites) an own property. *)
Definition assign (key : string) (v : Js.Value) (whereClause : Filter) : Filter :=
  if String.eqb key "__proto__" then whereClause
  else <[key := v]> whereClause.

(** The callback of [filters.forEach]. *)
Definition add_clause (whereClause : Filter) (filter : FilterClause) : Filter :=
  if Js.truthy_str (f_field filter) && Js.truthy_str (f_value filter) then
    if String.eqb (f_operator filter) "equals" then
      assign (f_field filter) (Js.Str (f_value filter)) whereClause
    else if String.eqb (f_operator filter) "contains" then
      assign (f_field filter)
             (Js.Obj [("$contains", Js.Str (f_value filter))]) whereClause
    else if String.eqb (f_operator filter) "greater" then
      assign (f_field filter)
             (Js.Obj [("$gt", Js.Str (f_value filter))]) whereClause
    else if String.eqb (f_operator filter) "less" then
      assign (f_field filter)
             (Js.Obj [("$lt", Js.Str (f_value filter))]) whereClause
    else whereClause
  else whereClause.

(** [const whereClause = {}; filters.forEach(...)] *)
Definition build_where (filters : list FilterClause) : Filter :=
  fold_left add_clause filters ∅.

(** [Object.keys(whereClause)] *)
Definition keys (whereClause : Filter) : list string :=
  (map_to_list whereClause).*1.

(** [Object.keys(whereClause).length > 0 ? whereClause : undefined] *)
Definition where_arg (whereClause : Filter) : option Filter :=
  if (0 <? length (keys whereClause))%nat then Some whereClause else None.

Definition semantic_args (search : string) (limit : nat) : QueryArgs :=
  {| qa_queryTexts := Some [search];
     qa_queryEmbeddings := None;
     qa_nResults := Z.of_nat limit;
     qa_include := [IncDocuments; IncMetadatas; IncDistances];
     qa_where := None;
     qa_whereDocument := None |}.

Definition text_args (search : string) (limit : nat) (offset : Z) : GetArgs :=
  {| ga_ids := None; ga_where := None;
     ga_whereDocument := Some {[ "$contains" := Js.Str search ]};
     ga_limit := Some limit; ga_offset := Some offset |}.

Definition metadata_args (filters : list FilterClause) (limit : nat)
    (offset : Z) : GetArgs :=
  {| ga_ids := None; ga_where := where_arg (build_where filters);
     ga_whereDocument := None;
     ga_limit := Some limit; ga_offset := Some offset |}.

Definition id_args (search : string) (limit : nat) : GetArgs :=
  {| ga_ids := Some [search]; ga_where := None; ga_whereDocument := None;
     ga_limit := Some limit; ga_offset := None |}.

Definition list_args (limit : nat) (offset : Z) : GetArgs :=
  {| ga_ids := None; ga_where := None; ga_whereDocument := None;
     ga_limit := Some limit; ga_offset := Some offset |}.

(** The body of the [try] of
    [fetchDocuments(page, search, type, filters)]. *)
Definition fetch_body (s : Service.ChromaDBService) (collectionName : string)
    (page : Z) (search : string) (type : SearchType)
    (filters : list FilterClause) : Eff (ViewerState * World) unit :=
  let* collection := open_collection s collectionName in
  let limit := documentsPerPage in
  let offset := ((page - 1) * Z.of_nat documentsPerPage)%Z in
  let* _ :=
    if Js.truthy_str search then
      match type with
      | SemanticSearch =>
          let* results := lift (query collection (semantic_args search limit)) in
          modify (setDocuments (Normalize.nested_documents results))
      | TextSearch =>
          let* results := lift (get collection (text_args search limit offset)) in
          modify (setDocuments (Normalize.flat_documents results))
      | MetadataSearch =>
          let* results :=
            lift (get collection (metadata_args filters limit offset)) in
          modify (setDocuments (Normalize.flat_documents results))
      | IdSearch =>
          let* results := lift (get collection (id_args search limit)) in
          modify (setDocuments (Normalize.flat_documents results))
      | RegexSearch =>
          let* results := lift (get collection (list_args limit offset)) in
          modify (setDocuments (Normalize.flat_documents results))
      end
    else
      let* results := lift (get collection (list_args limit offset)) in
      modify (setDocuments (Normalize.flat_documents results)) in
  let* n := lift (count collection) in
  modify (setTotalDocuments n).

(** [fetchDocuments] *)
Definition fetchDocuments (s : Service.ChromaDBService) (collectionName : string)
    (page : Z) (search : string) (type : SearchType)
    (filters : list FilterClause)
  : ViewerState * World -> ViewerState * World :=
  fetch_frame (fetch_body s collectionName page search type filters).

End EnhancedViewer.

(* ===================================================================== *)
(** ** Properties stated once, and sample worlds                          *)
(* ===================================================================== *)

(** Every collection, document and query operation of the service stops
    with the "not connected" error and leaves the world, hence the log of
    remote calls, as it was. *)
Definition refuses_all (s : Service.ChromaDBService) (w : Remote.World) : Prop :=
  forall (name : string) (q : QueryRequest) (nd : Service.NewDocument)
         (d : Document) (id_ : string),
    Service.getCollections s w
      = (Threw (Js.ErrorObj "Not connected to ChromaDB"), w)
    /\ Service.getCollectionDetails s name w
      = (Threw (Js.ErrorObj "Not connected to ChromaDB"), w)
    /\ Service.getCollectionSchema s name w
      = (Threw (Js.ErrorObj "Not connected to ChromaDB"), w)
    /\ Service.queryCollection s name q w
      = (Threw (Js.ErrorObj "Not connected to ChromaDB"), w)
    /\ Service.addDocument s name nd w
      = (Threw (Js.ErrorObj "Not connected to ChromaDB"), w)
    /\ Service.updateDocument s name d w
      = (Threw (Js.ErrorObj "Not connected to ChromaDB"), w)
    /\ Service.deleteDocument s name id_ w
      = (Threw (Js.ErrorObj "Not connected to ChromaDB"), w).

(** No remote call fails for a reason of the network. *)
Definition healthy (w : Remote.World) : Prop :=
  forall c : Remote.Call, Remote.fault w c = None.

(** The [get] request of the enhanced viewer's branches other than the
    semantic one: by content, by metadata, by id, or the plain page (also
    for the regex mode, and for every mode when the search term is
    empty). *)
Definition enhanced_get_args (search : string)
    (type : EnhancedViewer.SearchType)
    (filters : list EnhancedViewer.FilterClause) (page : Z) : Remote.GetArgs :=
  let limit := documentsPerPage in
  let offset := ((page - 1) * Z.of_nat documentsPerPage)%Z in
  if Js.truthy_str search then
    match type with
    | EnhancedViewer.TextSearch => EnhancedViewer.text_args search limit offset
    | EnhancedViewer.MetadataSearch =>
        EnhancedViewer.metadata_args filters limit offset
    | EnhancedViewer.IdSearch => EnhancedViewer.id_args search limit
    | _ => EnhancedViewer.list_args limit offset
    end
  else EnhancedViewer.list_args limit offset.


Module Samples.
Import Remote.

(** An engine that matches everything and ranks the first [nResults]
    records at distance 1. *)
Definition engine0 : Engine :=
  {| en_where := fun _ _ => true;
     en_whereDocument := fun _ _ => true;
     en_nearest := fun a docs =>
       [map (fun d => (d, 1%Z)) (take (Z.to_nat (qa_nResults a)) docs)];
     en_update := fun _ _ _ docs => docs;
     en_missing := fun name => Js.ErrorObj ("Collection " +:+ name +:+ " does not exist") |}.

Definition no_fault : Call -> option Js.Thrown := fun _ => None.

(** The heartbeat is refused; nothing else fails. *)
Definition heartbeat_refused : Call -> option Js.Thrown :=
  fun c => match c with
           | Heartbeat _ => Some (Js.ErrorObj "fetch failed")
           | _ => None
           end.

Definition greeting : StoredDoc :=
  {| sd_id := "d1"; sd_document := Some "hello world";
     sd_metadata := Some [("category", Js.Str "greeting")] |}.

(** [n] records "n0", "n1", ... without metadata. *)
Definition numbered (n : nat) : list StoredDoc :=
  map (fun i => {| sd_id := "n" +:+ pretty i; sd_document := Some "text";
                   sd_metadata := None |}) (seq 0 n).

Definition tagged : StoredDoc :=
  {| sd_id := "d2"; sd_document := Some "tagged";
     sd_metadata := Some [("tags", Js.Arr [Js.Str "a"; Js.Str "b"])] |}.

Definition world_of (docs : list StoredDoc) (f : Call -> option Js.Thrown)
    (en : Engine) : World :=
  {| collections := [{| rc_name := "docs"; rc_metadata := None; rc_docs := docs |}];
     fault := f; engine := en; now := 1700000000000; random36 := "k3j9x0q1z";
     calls := [] |}.

Definition local : ChromaClient :=
  {| cl_host := "localhost"; cl_port := 8000; cl_ssl := false |}.

Definition local_info : Service.ConnectionInfo :=
  {| Service.ci_name := "Local ChromaDB"; Service.ci_host := "localhost";
     Service.ci_port := 8000 |}.

(** A service with a client and no session record. *)
Definition attached : Service.ChromaDBService :=
  {| Service.client := Some local; Service.connection := None |}.

Definition blank : ViewerState :=
  {| documents := []; loading := true; error := None; totalDocuments := 0 |}.

End Samples.

(* ===================================================================== *)
(** ** Pagination controls of the document viewers                        *)
(* ===================================================================== *)

Module Pagination.

(** [Math.ceil(totalDocuments / documentsPerPage)]: the quotient, plus one
    when the division leaves a remainder. *)
Definition totalPages (total : nat) : nat :=
  total / documentsPerPage
  + (if (total mod documentsPerPage =? 0)%nat then 0 else 1).

(** [(page - 1) * documentsPerPage], the offset both viewers request. *)
Definition offset_of (page : Z) : Z :=
  ((page - 1) * Z.of_nat documentsPerPage)%Z.

(** The numbered buttons of the enhanced viewer:
    [Array.from({length: Math.min(5, totalPages)}, (_, i) => i + 1)] *)
Definition page_buttons (pages : nat) : list nat :=
  map (fun i => i + 1)%nat (seq 0 (Nat.min 5 pages)).

Inductive Click : Type :=
| Previous
| Next
| Numbered (page : nat).

(** The pagination block is rendered when [totalPages > 1]; Previous is
    [disabled={currentPage === 1}], Next is
    [disabled={currentPage === totalPages}], and a numbered button exists
    for each element of [page_buttons]. *)
Definition available (currentPage : Z) (pages : nat) (c : Click) : bool :=
  (1 <? pages)%nat
  && match c with
     | Previous => negb (currentPage =? 1)%Z
     | Next => negb (currentPage =? Z.of_nat pages)%Z
     | Numbered p => existsb (Nat.eqb p) (page_buttons pages)
     end.

(** The argument the button passes to [handlePageChange], which stores it
    with [setCurrentPage]. *)
Definition handlePageChange (currentPage : Z) (c : Click) : Z :=
  match c with
  | Previous => (currentPage - 1)%Z
  | Next => (currentPage + 1)%Z
  | Numbered p => Z.of_nat p
  end.

(** The caption of the basic viewer: "Showing
    [((currentPage - 1) * documentsPerPage) + 1] to
    [Math.min(currentPage * documentsPerPage, totalDocuments)]". *)
Definition showing_from (currentPage : Z) : Z :=
  ((currentPage - 1) * Z.of_nat documentsPerPage + 1)%Z.

Definition showing_to (currentPage : Z) (total : nat) : Z :=
  Z.min (currentPage * Z.of_nat documentsPerPage) (Z.of_nat total).

End Pagination.

(* ===================================================================== *)
(** ** The metadata filter rows of the enhanced viewer                    *)
(* ===================================================================== *)

Module FilterForm.
Import EnhancedViewer.

(** [addMetadataFilter]:
    [[...metadataFilters, {field: '', operator: 'equals', value: '', type: 'string'}]] *)
Definition addMetadataFilter (metadataFilters : list FilterClause)
  : list FilterClause :=
  metadataFilters
  ++ [{| f_field := ""; f_operator := "equals"; f_value := "";
         f_type := "string" |}].

(** [array.filter((_, i) => keep(i))], at index [i]. *)
Fixpoint filter_by_index {A : Type} (keep : nat -> bool) (i : nat) (l : list A)
  : list A :=
  match l with
  | [] => []
  | x :: rest =>
      if keep i then x :: filter_by_index keep (S i) rest
      else filter_by_index keep (S i) rest
  end.

(** [removeMetadataFilter]:
    [metadataFilters.filter((_, i) => i !== index)] *)
Definition removeMetadataFilter (index : nat)
    (metadataFilters : list FilterClause) : list FilterClause :=
  filter_by_index (fun i => negb (Nat.eqb i index)) 0 metadataFilters.

(** Whether the [forEach] callback writes a property for this row: field
    and value are not empty, the operator is one of the four cases of the
    [switch], and the field is not ['__proto__']. *)
Definition contributes (f : FilterClause) : bool :=
  Js.truthy_str (f_field f) && Js.truthy_str (f_value f)
  && (String.eqb (f_operator f) "equals"
      || String.eqb (f_operator f) "contains"
      || String.eqb (f_operator f) "greater"
      || String.eqb (f_operator f) "less")
  && negb (String.eqb (f_field f) "__proto__").

(** The value the row's case of the [switch] assigns. *)
Definition condition (f : FilterClause) : Js.Value :=
  if String.eqb (f_operator f) "equals" then Js.Str (f_value f)
  else if String.eqb (f_operator f) "contains"
       then Js.Obj [("$contains", Js.Str (f_value f))]
  else if String.eqb (f_operator f) "greater"
       then Js.Obj [("$gt", Js.Str (f_value f))]
  else Js.Obj [("$lt", Js.Str (f_value f))].

End FilterForm.

(* ===================================================================== *)
(** ** The query form: recent queries                                     *)
(* ===================================================================== *)

Module QueryForm.

(** The history update of [handleQuery], after a query that succeeded:
    [if (!queryHistory.includes(data.queryText))
       setQueryHistory(prev => [data.queryText, ...prev.slice(0, 4)])] *)
Definition remember (queryText : string) (queryHistory : list string)
  : list string :=
  if existsb (String.eqb queryText) queryHistory
  then queryHistory
  else queryText :: take 4 queryHistory.

End QueryForm.

(* ===================================================================== *)
(** ** The collection browser                                             *)
(* ===================================================================== *)

(** [src/components/collections/collection-browser.tsx] *)
Module Browser.
Import Remote.
Local Open Scope eff_scope.

(** The React state [fetchCollections] writes. *)
Record BrowserState : Type := {
  collections : list Collection;
  loading : bool;
  error : option string
}.

Definition setCollections (l : list Collection) (b : BrowserState) : BrowserState :=
  {| collections := l; loading := loading b; error := error b |}.

Definition setLoading (x : bool) (b : BrowserState) : BrowserState :=
  {| collections := collections b; loading := x; error := error b |}.

Definition setError (e : option string) (b : BrowserState) : BrowserState :=
  {| collections := collections b; loading := loading b; error := e |}.

(** The callback of [collectionList.map]:
    [try { return await getCollectionDetails(collection.name) }
     catch (err) { return collection }] *)
Definition detail_or_basic (s : Service.ChromaDBService) (collection : Collection)
  : Eff World Collection :=
  try_catch (Service.getCollectionDetails s (col_name collection))
            (fun _ => ret collection).

(** [Promise.all(collectionList.map(...))]: the callbacks only read the
    database and none of them throws, so the array of results does not
    depend on the order in which their calls are served; they are run
    here in list order. *)
Fixpoint all_details (s : Service.ChromaDBService) (l : list Collection)
  : Eff World (list Collection) :=
  match l with
  | [] => ret []
  | collection :: rest =>
      let* d := detail_or_basic s collection in
      let* ds := all_details s rest in
      ret (d :: ds)
  end.

(** [fetchCollections] *)
Definition fetchCollections (s : Service.ChromaDBService)
  : BrowserState * World -> BrowserState * World :=
  fun st =>
    let started := (setError None (setLoading true (fst st)), snd st) in
    let body :=
      let* collectionList := lift (Service.getCollections s) in
      let* detailedCollections := lift (all_details s collectionList) in
      modify (setCollections detailedCollections) in
    let protected :=
      try_catch body
        (fun err => modify (setError
                      (Some (Js.message_or "Failed to fetch collections" err)))) in
    snd (try_finally protected
           (fun s' => (setLoading false (fst s'), snd s')) started).

End Browser.

(** What the browser shows for a remote collection once its details have
    arrived: the literal [getCollectionDetails] returns. *)
Definition detailed_view (created : Z) (rc : Remote.RemoteCollection)
  : Collection :=
  {| col_id := "collection_" +:+ Remote.rc_name rc;
     col_name := Remote.rc_name rc;
     col_count := length (Remote.rc_docs rc);
     col_metadata := Remote.rc_metadata rc;
     col_createdAt := created |}.

(** More sample worlds. *)
Module Scenes.
Import Remote.


(** Two collections, of two documents and of none. *)
Definition two_collections : World :=
  {| collections := [{| rc_name := "docs"; rc_metadata := None;
                        rc_docs := [Samples.greeting; Samples.tagged] |};
                     {| rc_name := "empty"; rc_metadata := None; rc_docs := [] |}];
     fault := Samples.no_fault; engine := Samples.engine0;
     now := 1700000000000; random36 := "k3j9x0q1z"; calls := [] |}.

Definition idle : Browser.BrowserState :=
  {| Browser.collections := []; Browser.loading := false; Browser.error := None |}.

End Scenes.

(* ===================================================================== *)
(** ** Theorems                                                           *)
(* ===================================================================== *)

Section EmbeddingFacts.
Import Embedding.

Lemma step_length i c e : length (step i c e) = length e.
Proof. unfold step. apply length_insert. Qed.

Lemma loop_length rest : forall i e, length (loop i rest e) = length e.
Proof.
  induction rest as [|c rest IH]; intros i e; simpl; [done|].
  rewrite IH. apply step_length.
Qed.

Lemma embed_length text : length (embed text) = 1536.
Proof. unfold embed. rewrite loop_length. apply length_replicate. Qed.

Lemma step_bounded i c e : bounded e -> bounded (step i c e).
Proof.
  unfold bounded, step. intros H.
  destruct (decide (i mod 1536 < length e)) as [Hlt|Hge].
  - apply Forall_insert; [done|]. apply N.mod_lt. lia.
  - rewrite list_insert_ge; [done|lia].
Qed.

Lemma loop_bounded rest : forall i e, bounded e -> bounded (loop i rest e).
Proof.
  induction rest as [|c rest IH]; intros i e H; simpl; [done|].
  apply IH. by apply step_bounded.
Qed.

Lemma loop_snoc rest : forall i e c,
  loop i (rest ++ [c]) e = step (i + length rest) c (loop i rest e).
Proof.
  induction rest as [|d rest IH]; intros i e c; simpl.
  - by rewrite Nat.add_0_r.
  - rewrite IH. f_equal. lia.
Qed.

End EmbeddingFacts.

Example embed_abc :
  take 4 (Embedding.embed (Embedding.code_units "abc")) = [97; 98; 99; 0]%N.
Proof. reflexivity. Qed.

(** The 1537th character lands on position 0 again. *)
Example embed_wraps_around :
  take 2 (Embedding.embed (replicate 1537 600%N)) = [200; 600]%N.
Proof. vm_compute. reflexivity. Qed.

(** C9: the placeholder embedding returns one vector per text, each of
    length 1536; the vector of the empty text is all zeros, reading one
    more character [c] at index [i = length text] writes
    [(previous entry + c) mod 1000] at position [i mod 1536], and every
    entry is below 1000. *)
Theorem generate_one_bounded_vector_per_text (texts : list Embedding.Text) :
  length (Embedding.generate texts) = length texts
  /\ (forall k, Embedding.generate texts !! k = Embedding.embed <$> texts !! k)
  /\ (forall text, length (Embedding.embed text) = 1536%nat
                   /\ Forall (fun x => (x < 1000)%N) (Embedding.embed text))
  /\ Embedding.embed [] = replicate 1536 0%N
  /\ (forall text c,
        let k := (length text mod 1536)%nat in
        Embedding.embed (text ++ [c])
        = <[k := ((default 0%N (Embedding.embed text !! k) + c) mod 1000)%N]>
            (Embedding.embed text)).
Proof.
  repeat split.
  - unfold Embedding.generate. apply length_map.
  - intros k. unfold Embedding.generate. apply list_lookup_fmap.
  - apply embed_length.
  - unfold Embedding.embed. apply loop_bounded.
    unfold Embedding.bounded. apply Forall_replicate. lia.
  - intros text c. unfold Embedding.embed. rewrite loop_snoc. reflexivity.
Qed.

Section ServiceFacts.
Import Remote Service.

Lemma with_client_none {A : Type} (conn : option ChromaConnection)
    (body : ChromaClient -> Eff World A) (w : World) :
  with_client {| client := None; connection := conn |} body w
  = (Threw (Js.ErrorObj "Not connected to ChromaDB"), w).
Proof. reflexivity. Qed.

Lemma refuses_without_client (conn : option ChromaConnection) (w : World) :
  refuses_all {| client := None; connection := conn |} w.
Proof.
  intros name q nd d id_.
  unfold getCollections, getCollectionDetails, getCollectionSchema,
    queryCollection, addDocument, updateDocument, deleteDocument.
  rewrite !with_client_none. repeat split.
Qed.

End ServiceFacts.

(** C1: in every state without a client handle, and so in the state
    [disconnect] leaves behind whatever came before, each of
    getCollections, getCollectionDetails, getCollectionSchema,
    queryCollection, addDocument, updateDocument and deleteDocument fails
    with "Not connected to ChromaDB" and issues no remote call. *)
Theorem operations_refuse_without_connection :
  (forall (conn : option ChromaConnection) (w : Remote.World),
      refuses_all {| Service.client := None; Service.connection := conn |} w)
  /\ (forall (s : Service.ChromaDBService) (w : Remote.World),
        Service.disconnect (s, w) = (Returned tt, (Service.initial, w))
        /\ refuses_all (fst (snd (Service.disconnect (s, w))))
                       (snd (snd (Service.disconnect (s, w))))).
Proof.
  split.
  - apply refuses_without_client.
  - intros s w. split; [reflexivity|].
    apply (refuses_without_client None w).
Qed.

(** C2 (the code at a failing input): a connect attempt whose heartbeat
    is refused fails with the wrapped message, but the client handle
    created before the heartbeat stays installed.  From a fresh service
    the next getCollections goes to the network instead of failing with
    "Not connected"; from a connected service the old session record is
    kept and isConnected stays true. *)
Theorem failed_connect_keeps_client_handle :
  let w := Samples.world_of [] Samples.heartbeat_refused Samples.engine0 in
  let fresh := Service.connect Samples.local_info (Service.initial, w) in
  let session := {| conn_id := "conn_1"; conn_name := "Other";
                    conn_host := "10.0.0.9"; conn_port := 8000;
                    conn_connected := true; conn_createdAt := 1 |} in
  let before := {| Service.client :=
                     Some {| Remote.cl_host := "10.0.0.9"; Remote.cl_port := 8000;
                             Remote.cl_ssl := false |};
                   Service.connection := Some session |} in
  let again := Service.connect Samples.local_info (before, w) in
  fst fresh = Threw (Js.ErrorObj "Failed to connect to ChromaDB: fetch failed")
  /\ Service.getConnection (fst (snd fresh)) = None
  /\ Service.isConnected (fst (snd fresh)) = false
  /\ Service.getClient (fst (snd fresh)) = Some Samples.local
  /\ Service.getClient Service.initial = None
  /\ Remote.calls (snd (Service.getCollections (fst (snd fresh)) (snd (snd fresh))))
     = [Remote.Heartbeat Samples.local; Remote.ListCollections Samples.local]
  /\ fst again = Threw (Js.ErrorObj "Failed to connect to ChromaDB: fetch failed")
  /\ Service.getConnection (fst (snd again)) = Some session
  /\ Service.isConnected (fst (snd again)) = true
  /\ Service.getClient (fst (snd again)) = Some Samples.local.
Proof. vm_compute. repeat split. Qed.

(** C4 (the code at a failing input): for a sampled metadata value that
    is an array, getCollectionSchema reports the type "object", the
    result of [typeof]; the classification that answers "array",
    [inferFieldType], is not what getCollectionSchema applies. *)
Theorem schema_types_array_as_object :
  let w := Samples.world_of [Samples.tagged] Samples.no_fault Samples.engine0 in
  fst (Service.getCollectionSchema Samples.attached "docs" w)
  = Returned {| sch_name := "docs"; sch_vectorDimension := 1536;
                sch_distanceFunction := "cosine";
                sch_fields := [{| fld_name := "tags"; fld_type := "object";
                                  fld_nullable := false;
                                  fld_sample := Js.Arr [Js.Str "a"; Js.Str "b"] |}] |}
  /\ Service.inferFieldType (Js.Arr [Js.Str "a"; Js.Str "b"]) = "array".
Proof. vm_compute. split; reflexivity. Qed.

Section NormalizeFacts.
Import Remote Normalize.

Lemma or_str_default (x : option string) : Js.or_str x "" = default "" x.
Proof.
  destruct x as [s|]; simpl; [|reflexivity].
  unfold Js.truthy_str. destruct (String.eqb s "") eqn:E; simpl; [|reflexivity].
  apply String.eqb_eq in E. by subst.
Qed.

Lemma or_undefined_id {A : Type} (x : option A) : Js.or_undefined x = x.
Proof. by destruct x. Qed.

Lemma opt_index_spec {A : Type} (a : option (list (option A))) (i : nat) :
  Js.opt_index a i = mjoin (a ≫= fun l => l !! i).
Proof.
  destruct a as [l|]; simpl; [|reflexivity]. by destruct (l !! i).
Qed.

(** The index loop with [push] is a positional map. *)
Lemma index_loop_imap {A B : Type} (f : nat -> A -> B)
    (loop : nat -> list A -> list B -> list B)
    (Hnil : forall i out, loop i [] out = out)
    (Hcons : forall i x l out, loop i (x :: l) out = loop (S i) l (out ++ [f i x])%list) :
  forall l i out, loop i l out = (out ++ imap (fun j => f (i + j)) l)%list.
Proof.
  induction l as [|x l IH]; intros i out.
  - rewrite Hnil. simpl. by rewrite app_nil_r.
  - rewrite Hcons, IH. rewrite <- app_assoc. simpl. f_equal.
    rewrite Nat.add_0_r. f_equal.
    apply imap_ext. intros j y _. simpl. f_equal. lia.
Qed.

Lemma flat_loop_imap (r : GetResponse) (ids : list string) :
  flat_loop r 0 ids [] = imap (flat_document r) ids.
Proof.
  rewrite (index_loop_imap (flat_document r) (flat_loop r)); [|done|done].
  simpl. apply imap_ext. by intros.
Qed.

Lemma nested_loop_imap (r : QueryResponse) (ids : list string) :
  nested_loop r 0 ids [] = imap (nested_document r) ids.
Proof.
  rewrite (index_loop_imap (nested_document r) (nested_loop r)); [|done|done].
  simpl. apply imap_ext. by intros.
Qed.

Lemma flat_documents_imap (r : GetResponse) :
  flat_documents r = imap (flat_document r) (default [] (gr_ids r)).
Proof.
  unfold flat_documents. destruct (gr_ids r) as [ids|]; simpl; [|reflexivity].
  destruct ids as [|x ids]; [reflexivity|].
  change (0 <? length (x :: ids))%nat with true. cbv iota.
  apply flat_loop_imap.
Qed.

Lemma nested_documents_imap (r : QueryResponse) :
  nested_documents r = imap (nested_document r) (default [] (Service.row0 (qr_ids r))).
Proof.
  unfold nested_documents. destruct (Service.row0 (qr_ids r)) as [ids|]; simpl;
    [|reflexivity].
  apply nested_loop_imap.
Qed.

Lemma nested_guard_redundant (r : QueryResponse) :
  nested_documents_guarded r = nested_documents r.
Proof.
  unfold nested_documents_guarded, nested_documents, Service.row0, Js.opt_index.
  destruct (qr_ids r) as [[|row rows]|]; reflexivity.
Qed.

Lemma query_loop_imap (r : QueryResponse) (ids : list string) :
  Service.query_loop r 0 ids []
  = imap (fun i id_ =>
            {| res_id := id_;
               res_content := Js.or_str (Service.cell (qr_documents r) i) "";
               res_metadata := Js.or_undefined (Service.cell (qr_metadatas r) i);
               res_distance := Js.or_num (Service.cell (qr_distances r) i) 0 |}) ids.
Proof.
  rewrite (index_loop_imap
             (fun i id_ =>
                {| res_id := id_;
                   res_content := Js.or_str (Service.cell (qr_documents r) i) "";
                   res_metadata := Js.or_undefined (Service.cell (qr_metadatas r) i);
                   res_distance := Js.or_num (Service.cell (qr_distances r) i) 0 |})
             (Service.query_loop r)); [|done|done].
  simpl. apply imap_ext. by intros.
Qed.

End NormalizeFacts.

Lemma normalizers_are_positional
    (g : Remote.GetResponse) (q : Remote.QueryResponse) (ids : list string) :
  Normalize.flat_documents g
  = imap (fun i id_ =>
            {| doc_id := id_;
               doc_content := default "" (mjoin (Remote.gr_documents g ≫= fun l => l !! i));
               doc_metadata := mjoin (Remote.gr_metadatas g ≫= fun l => l !! i);
               doc_embedding := None |})
         (default [] (Remote.gr_ids g))
  /\ Normalize.nested_documents q
  = imap (fun i id_ =>
            {| doc_id := id_;
               doc_content :=
                 default "" (mjoin (Service.row0 (Remote.qr_documents q) ≫= fun l => l !! i));
               doc_metadata :=
                 mjoin (Service.row0 (Remote.qr_metadatas q) ≫= fun l => l !! i);
               doc_embedding := None |})
         (default [] (Service.row0 (Remote.qr_ids q)))
  /\ Normalize.nested_documents_guarded q = Normalize.nested_documents q
  /\ map res_id (Service.query_results q) = default [] (Service.row0 (Remote.qr_ids q))
  /\ map res_content (Service.query_results q)
     = map doc_content (Normalize.nested_documents q)
  /\ map res_metadata (Service.query_results q)
     = map doc_metadata (Normalize.nested_documents q)
  /\ Normalize.flat_documents
       {| Remote.gr_ids := Some ids; Remote.gr_documents := None;
          Remote.gr_metadatas := None |}
     = map (fun id_ => {| doc_id := id_; doc_content := ""; doc_metadata := None;
                          doc_embedding := None |}) ids
  /\ Normalize.nested_documents
       {| Remote.qr_ids := Some [Some ids]; Remote.qr_documents := None;
          Remote.qr_metadatas := None; Remote.qr_distances := None |}
     = map (fun id_ => {| doc_id := id_; doc_content := ""; doc_metadata := None;
                          doc_embedding := None |}) ids.
Proof.
  assert (Hflat : forall g', Normalize.flat_documents g'
    = imap (fun i id_ =>
            {| doc_id := id_;
               doc_content := default "" (mjoin (Remote.gr_documents g' ≫= fun l => l !! i));
               doc_metadata := mjoin (Remote.gr_metadatas g' ≫= fun l => l !! i);
               doc_embedding := None |})
         (default [] (Remote.gr_ids g'))).
  { intros g'. rewrite flat_documents_imap. apply imap_ext. intros i x _.
    unfold Normalize.flat_document.
    by rewrite or_str_default, or_undefined_id, !opt_index_spec. }
  assert (Hnested : forall q', Normalize.nested_documents q'
    = imap (fun i id_ =>
            {| doc_id := id_;
               doc_content :=
                 default "" (mjoin (Service.row0 (Remote.qr_documents q') ≫= fun l => l !! i));
               doc_metadata :=
                 mjoin (Service.row0 (Remote.qr_metadatas q') ≫= fun l => l !! i);
               doc_embedding := None |})
         (default [] (Service.row0 (Remote.qr_ids q')))).
  { intros q'. rewrite nested_documents_imap. apply imap_ext. intros i x _.
    unfold Normalize.nested_document, Service.cell.
    by rewrite or_str_default, or_undefined_id, !opt_index_spec. }
  assert (Hquery : Service.query_results q
    = imap (fun i id_ =>
              {| res_id := id_;
                 res_content := Js.or_str (Service.cell (Remote.qr_documents q) i) "";
                 res_metadata := Js.or_undefined (Service.cell (Remote.qr_metadatas q) i);
                 res_distance := Js.or_num (Service.cell (Remote.qr_distances q) i) 0 |})
           (default [] (Service.row0 (Remote.qr_ids q)))).
  { unfold Service.query_results.
    destruct (Service.row0 (Remote.qr_ids q)) as [l|]; simpl; [|reflexivity].
    apply query_loop_imap. }
  split; [apply Hflat|]. split; [apply Hnested|].
  split; [apply nested_guard_redundant|].
  split.
  { rewrite Hquery. generalize (default [] (Service.row0 (Remote.qr_ids q))).
    intros l. apply list_eq. intros i.
    rewrite list_lookup_fmap, list_lookup_imap. by destruct (l !! i). }
  split.
  { rewrite Hquery, nested_documents_imap.
    generalize (default [] (Service.row0 (Remote.qr_ids q))).
    intros l. apply list_eq. intros i.
    rewrite !list_lookup_fmap, !list_lookup_imap. by destruct (l !! i). }
  split.
  { rewrite Hquery, nested_documents_imap.
    generalize (default [] (Service.row0 (Remote.qr_ids q))).
    intros l. apply list_eq. intros i.
    rewrite !list_lookup_fmap, !list_lookup_imap. by destruct (l !! i). }
  split.
  { rewrite Hflat. simpl. apply list_eq. intros i.
    rewrite list_lookup_fmap, list_lookup_imap. by destruct (ids !! i). }
  { rewrite Hnested. simpl. apply list_eq. intros i.
    rewrite list_lookup_fmap, list_lookup_imap. by destruct (ids !! i). }
Qed.

Section ServedResponses.
Import Remote.

Variables (c : ChromaClient) (conn : option ChromaConnection) (name : string)
          (w : World).

(** queryCollection, by what the two remote calls do. *)
Lemma queryCollection_by_outcome (q : QueryRequest) :
  match getCollection c name w with
  | (Returned h, w1) =>
      match query h (Service.query_options q) w1 with
      | (Returned g, w2) =>
          Service.queryCollection
            {| Service.client := Some c; Service.connection := conn |} name q w
          = (Returned (Service.query_results g), w2)
      | (Threw e, w2) =>
          Service.queryCollection
            {| Service.client := Some c; Service.connection := conn |} name q w
          = (Threw (Js.ErrorObj ("Failed to query collection: "
                                 +:+ Js.message_or "Unknown error" e)), w2)
      end
  | (Threw e, w1) =>
      Service.queryCollection
        {| Service.client := Some c; Service.connection := conn |} name q w
      = (Threw (Js.ErrorObj ("Failed to query collection: "
                             +:+ Js.message_or "Unknown error" e)), w1)
  end.
Proof.
  unfold Service.queryCollection, Service.with_client, rethrow, try_catch, bind.
  cbn [Service.client].
  destruct (getCollection c name w) as [[h|e] w1]; [|reflexivity].
  by destruct (query h (Service.query_options q) w1) as [[g|e] w2].
Qed.

(** The documents the basic viewer shows, by what the remote calls do. *)
Lemma basic_documents_by_outcome (page : Z) (search : string) (v : ViewerState) :
  let shown :=
    documents (fst (BasicViewer.fetchDocuments
                      {| Service.client := Some c; Service.connection := conn |}
                      name page search (v, w))) in
  match getCollection c name w with
  | (Returned h, w1) =>
      if Js.truthy_str search then
        match query h (BasicViewer.search_args search documentsPerPage) w1 with
        | (Returned g, _) => shown = Normalize.nested_documents g
        | (Threw _, _) => shown = documents v
        end
      else
        match get h (BasicViewer.page_args documentsPerPage
                       ((page - 1) * Z.of_nat documentsPerPage)) w1 with
        | (Returned g, _) => shown = Normalize.flat_documents g
        | (Threw _, _) => shown = documents v
        end
  | (Threw _, _) => shown = documents v
  end.
Proof.
  unfold BasicViewer.fetchDocuments, BasicViewer.fetch_body, fetch_frame,
    try_finally, try_catch, bind, open_collection, lift, modify,
    Service.getClient.
  cbv beta zeta. cbn [fst snd Service.client].
  destruct (getCollection c name w) as [[h|e] w1]; cbn [fst snd]; [|reflexivity].
  destruct (Js.truthy_str search); cbn [fst snd].
  - destruct (query h _ w1) as [[g|e] w2]; cbn [fst snd]; [|reflexivity].
    cbn. apply nested_guard_redundant.
  - destruct (get h _ w1) as [[g|e] w2]; cbn [fst snd]; [|reflexivity].
    by destruct (count h w2) as [[n|e] w3].
Qed.

(** The documents the enhanced viewer shows, by what the remote calls do. *)
Lemma enhanced_documents_by_outcome (page : Z) (search : string)
    (type : EnhancedViewer.SearchType)
    (filters : list EnhancedViewer.FilterClause) (v : ViewerState) :
  let shown :=
    documents (fst (EnhancedViewer.fetchDocuments
                      {| Service.client := Some c; Service.connection := conn |}
                      name page search type filters (v, w))) in
  match getCollection c name w with
  | (Returned h, w1) =>
      if Js.truthy_str search
         && match type with EnhancedViewer.SemanticSearch => true | _ => false end
      then
        match query h (EnhancedViewer.semantic_args search documentsPerPage) w1 with
        | (Returned g, _) => shown = Normalize.nested_documents g
        | (Threw _, _) => shown = documents v
        end
      else
        match get h (enhanced_get_args search type filters page) w1 with
        | (Returned g, _) => shown = Normalize.flat_documents g
        | (Threw _, _) => shown = documents v
        end
  | (Threw _, _) => shown = documents v
  end.
Proof.
  unfold EnhancedViewer.fetchDocuments, EnhancedViewer.fetch_body, fetch_frame,
    try_finally, try_catch, bind, open_collection, lift, modify,
    Service.getClient, enhanced_get_args.
  cbv beta zeta. cbn [fst snd Service.client].
  destruct (getCollection c name w) as [[h|e] w1]; cbn [fst snd]; [|reflexivity].
  destruct (Js.truthy_str search); [destruct type|]; cbn [andb fst snd];
    cbv beta iota zeta;
    lazymatch goal with
    | |- context [query h ?a w1] =>
        destruct (query h a w1) as [[g|e] w2]
    | |- context [get h ?a w1] =>
        destruct (get h a w1) as [[g|e] w2]
    end; cbn [fst snd]; try reflexivity;
    by destruct (count h w2) as [[n|e] w3].
Qed.

End ServedResponses.

(** C6: normalization is a total function of the response.  A flat
    ([get]) response maps position [i] of its id list, and a nested
    ([query]) response position [i] of row 0, to the Document with that
    id, with content [""] when the documents array, or its entry, is
    missing or null, and with no metadata when the metadatas array, or
    its entry, is missing or null; a response without ids gives the empty
    list.  The service's queryCollection follows the same positions.
    In every search mode this is what reaches the caller: once the
    collection lookup and the query or get request are served,
    queryCollection returns the normalized rows of the response, and the
    basic and the enhanced viewer show the normalized documents of the
    response (nested for the semantic search and the basic search, flat
    for the text, metadata, id, regex and plain listing requests); none
    of them throws on a response that was served. *)
Theorem normalization_is_positional_with_defaults
    (g : Remote.GetResponse) (q : Remote.QueryResponse) (ids : list string)
    (c : Remote.ChromaClient) (conn : option ChromaConnection) (name : string)
    (w : Remote.World) (request : QueryRequest) (page : Z) (search : string)
    (type : EnhancedViewer.SearchType)
    (filters : list EnhancedViewer.FilterClause) (v : ViewerState) :
  let s := {| Service.client := Some c; Service.connection := conn |} in
  let basic := documents (fst (BasicViewer.fetchDocuments s name page search
                                  (v, w))) in
  let enhanced := documents (fst (EnhancedViewer.fetchDocuments s name page
                                     search type filters (v, w))) in
  (  Normalize.flat_documents g
    = imap (fun i id_ =>
              {| doc_id := id_;
                 doc_content := default "" (mjoin (Remote.gr_documents g ≫= fun l => l !! i));
                 doc_metadata := mjoin (Remote.gr_metadatas g ≫= fun l => l !! i);
                 doc_embedding := None |})
           (default [] (Remote.gr_ids g))
    /\ Normalize.nested_documents q
    = imap (fun i id_ =>
              {| doc_id := id_;
                 doc_content :=
                   default "" (mjoin (Service.row0 (Remote.qr_documents q) ≫= fun l => l !! i));
                 doc_metadata :=
                   mjoin (Service.row0 (Remote.qr_metadatas q) ≫= fun l => l !! i);
                 doc_embedding := None |})
           (default [] (Service.row0 (Remote.qr_ids q)))
    /\ Normalize.nested_documents_guarded q = Normalize.nested_documents q
    /\ map res_id (Service.query_results q) = default [] (Service.row0 (Remote.qr_ids q))
    /\ map res_content (Service.query_results q)
       = map doc_content (Normalize.nested_documents q)
    /\ map res_metadata (Service.query_results q)
       = map doc_metadata (Normalize.nested_documents q)
    /\ Normalize.flat_documents
         {| Remote.gr_ids := Some ids; Remote.gr_documents := None;
            Remote.gr_metadatas := None |}
       = map (fun id_ => {| doc_id := id_; doc_content := ""; doc_metadata := None;
                            doc_embedding := None |}) ids
    /\ Normalize.nested_documents
         {| Remote.qr_ids := Some [Some ids]; Remote.qr_documents := None;
            Remote.qr_metadatas := None; Remote.qr_distances := None |}
       = map (fun id_ => {| doc_id := id_; doc_content := ""; doc_metadata := None;
                            doc_embedding := None |}) ids)
  /\ match Remote.getCollection c name w with
     | (Returned h, w1) =>
         match Remote.query h (Service.query_options request) w1 with
         | (Returned served, w2) =>
             Service.queryCollection s name request w
             = (Returned (Service.query_results served), w2)
         | (Threw e, w2) =>
             Service.queryCollection s name request w
             = (Threw (Js.ErrorObj ("Failed to query collection: "
                                    +:+ Js.message_or "Unknown error" e)), w2)
         end
     | (Threw e, w1) =>
         Service.queryCollection s name request w
         = (Threw (Js.ErrorObj ("Failed to query collection: "
                                +:+ Js.message_or "Unknown error" e)), w1)
     end
  /\ match Remote.getCollection c name w with
     | (Returned h, w1) =>
         if Js.truthy_str search then
           match Remote.query h (BasicViewer.search_args search documentsPerPage)
                              w1 with
           | (Returned served, _) => basic = Normalize.nested_documents served
           | (Threw _, _) => basic = documents v
           end
         else
           match Remote.get h (BasicViewer.page_args documentsPerPage
                                 ((page - 1) * Z.of_nat documentsPerPage)) w1 with
           | (Returned served, _) => basic = Normalize.flat_documents served
           | (Threw _, _) => basic = documents v
           end
     | (Threw _, _) => basic = documents v
     end
  /\ match Remote.getCollection c name w with
     | (Returned h, w1) =>
         if Js.truthy_str search
            && match type with
               | EnhancedViewer.SemanticSearch => true
               | _ => false
               end
         then
           match Remote.query h
                   (EnhancedViewer.semantic_args search documentsPerPage) w1 with
           | (Returned served, _) => enhanced = Normalize.nested_documents served
           | (Threw _, _) => enhanced = documents v
           end
         else
           match Remote.get h (enhanced_get_args search type filters page) w1 with
           | (Returned served, _) => enhanced = Normalize.flat_documents served
           | (Threw _, _) => enhanced = documents v
           end
     | (Threw _, _) => enhanced = documents v
     end.
Proof.
  intros s basic enhanced.
  split; [apply normalizers_are_positional|].
  split; [apply queryCollection_by_outcome|].
  split; [apply basic_documents_by_outcome|apply enhanced_documents_by_outcome].
Qed.

Section RemoteFacts.
Import Remote.

Lemma find_collection_name (name : string) (cs : list RemoteCollection)
    (col : RemoteCollection) :
  find_collection name cs = Some col -> rc_name col = name.
Proof.
  unfold find_collection. intros H. apply find_some in H as [_ H].
  by apply String.eqb_eq.
Qed.

Lemma healthy_record_call (c : Call) (w : World) :
  healthy w -> healthy (record_call c w).
Proof. intros H c'. apply H. Qed.

Lemma healthy_with_collections (cs : list RemoteCollection) (w : World) :
  healthy w -> healthy (with_collections cs w).
Proof. intros H c'. apply H. Qed.

(** A read served from a collection that exists. *)
Lemma rpc_reading {A : Type} (c : Call) (name : string)
    (f : RemoteCollection -> World -> A) (w : World) (col : RemoteCollection) :
  healthy w ->
  find_collection name (collections w) = Some col ->
  rpc c (reading name f) w = (Returned (f col w), record_call c w).
Proof.
  intros Hh Hf. unfold rpc, reading. rewrite Hh, Hf. reflexivity.
Qed.

(** A write served on a collection that exists. *)
Lemma rpc_writing (c : Call) (name : string)
    (f : RemoteCollection -> World -> list StoredDoc) (w : World)
    (col : RemoteCollection) :
  healthy w ->
  find_collection name (collections w) = Some col ->
  rpc c (writing name f) w
  = (Returned tt,
     with_collections (store_docs name (f col w) (collections w)) (record_call c w)).
Proof.
  intros Hh Hf. unfold rpc, writing. rewrite Hh, Hf. reflexivity.
Qed.

Lemma getCollection_found (c : ChromaClient) (name : string) (w : World)
    (col : RemoteCollection) :
  healthy w ->
  find_collection name (collections w) = Some col ->
  getCollection c name w
  = (Returned (handle_of col), record_call (GetCollection c name) w).
Proof. intros Hh Hf. unfold getCollection. by rewrite (rpc_reading _ _ _ _ col). Qed.

Lemma count_found (name : string) (w : World) (col : RemoteCollection) :
  healthy w ->
  find_collection name (collections w) = Some col ->
  count (handle_of col) w
  = (Returned (length (rc_docs col)), record_call (Count name) w).
Proof.
  intros Hh Hf. unfold count. simpl.
  rewrite (find_collection_name _ _ _ Hf).
  by rewrite (rpc_reading _ _ _ _ col).
Qed.

Lemma get_found (name : string) (a : GetArgs) (w : World)
    (col : RemoteCollection) :
  healthy w ->
  find_collection name (collections w) = Some col ->
  get (handle_of col) a w
  = (Returned (flat_response (select (engine w) a (rc_docs col))),
     record_call (Get name a) w).
Proof.
  intros Hh Hf. unfold get. simpl.
  rewrite (find_collection_name _ _ _ Hf).
  by rewrite (rpc_reading _ _ _ _ col).
Qed.

Lemma query_found (name : string) (a : QueryArgs) (w : World)
    (col : RemoteCollection) :
  healthy w ->
  find_collection name (collections w) = Some col ->
  query (handle_of col) a w
  = (Returned (nested_response (qa_include a)
                 (en_nearest (engine w) a (rc_docs col))),
     record_call (Query name a) w).
Proof.
  intros Hh Hf. unfold query. simpl.
  rewrite (find_collection_name _ _ _ Hf).
  by rewrite (rpc_reading _ _ _ _ col).
Qed.


(** After a write the collection is found again, with the new records. *)
Lemma find_collection_store (name : string) (docs : list StoredDoc)
    (cs : list RemoteCollection) (col : RemoteCollection) :
  find_collection name cs = Some col ->
  find_collection name (store_docs name docs cs)
  = Some {| rc_name := rc_name col; rc_metadata := rc_metadata col;
            rc_docs := docs |}.
Proof.
  unfold find_collection.
  induction cs as [|c cs IH]; simpl; [discriminate|].
  destruct (String.eqb (rc_name c) name) eqn:E; simpl.
  - rewrite E. intros [= ->]. reflexivity.
  - rewrite E. apply IH.
Qed.

End RemoteFacts.

(** C8: with a client installed, a healthy network and an existing
    collection that holds zero documents, getCollectionSchema returns the
    schema with no fields, vectorDimension 1536 and distanceFunction
    "cosine". *)
Theorem schema_of_empty_collection
    (s : Service.ChromaDBService) (c : Remote.ChromaClient) (name : string)
    (col : Remote.RemoteCollection) (w : Remote.World) :
  Service.client s = Some c ->
  healthy w ->
  Remote.find_collection name (Remote.collections w) = Some col ->
  Remote.rc_docs col = [] ->
  fst (Service.getCollectionSchema s name w)
  = Returned {| sch_name := name; sch_vectorDimension := 1536;
                sch_distanceFunction := "cosine"; sch_fields := [] |}.
Proof.
  intros Hc Hh Hf Hdocs.
  unfold Service.getCollectionSchema, Service.with_client, rethrow, try_catch, bind.
  rewrite Hc.
  rewrite (getCollection_found c name w col Hh Hf).
  rewrite (get_found name Service.sample_args _ col);
    [|by apply healthy_record_call|exact Hf].
  rewrite Hdocs. reflexivity.
Qed.

Lemma schema_of_empty_collection_witness :
  fst (Service.getCollectionSchema Samples.attached "docs"
         (Samples.world_of [] Samples.no_fault Samples.engine0))
  = Returned {| sch_name := "docs"; sch_vectorDimension := 1536;
                sch_distanceFunction := "cosine"; sch_fields := [] |}.
Proof.
  apply (schema_of_empty_collection Samples.attached Samples.local "docs"
           {| Remote.rc_name := "docs"; Remote.rc_metadata := None;
              Remote.rc_docs := [] |}).
  - reflexivity.
  - intros c. reflexivity.
  - reflexivity.
  - reflexivity.
Defined.

(** C10: with a client installed and a healthy network, getCollections
    returns one record per collection of the page listed (the first
    hundred), in order and under its name, each with count 0 however many
    documents the collection holds;
    getCollectionDetails is the operation that reports the number of
    documents. *)
Theorem listed_collections_report_zero
    (s : Service.ChromaDBService) (c : Remote.ChromaClient) (w : Remote.World) :
  Service.client s = Some c ->
  healthy w ->
  (exists cols,
      Service.getCollections s w
      = (Returned cols, Remote.record_call (Remote.ListCollections c) w)
      /\ map col_name cols
         = map Remote.rc_name (take Remote.list_page (Remote.collections w))
      /\ Forall (fun col => col_count col = 0%nat) cols)
  /\ (forall name rc,
        Remote.find_collection name (Remote.collections w) = Some rc ->
        exists d w',
          Service.getCollectionDetails s name w = (Returned d, w')
          /\ col_name d = name
          /\ col_count d = length (Remote.rc_docs rc)).
Proof.
  intros Hc Hh. split.
  - eexists. split; [|split].
    + unfold Service.getCollections, Service.with_client, rethrow, try_catch, bind.
      rewrite Hc. unfold Remote.listCollections, Remote.rpc. rewrite Hh.
      reflexivity.
    + apply list_eq. intros i.
      rewrite !list_lookup_fmap, list_lookup_imap, list_lookup_fmap.
      by destruct (take Remote.list_page (Remote.collections w) !! i).
    + apply Forall_lookup. intros i x Hx.
      rewrite list_lookup_imap in Hx.
      destruct (_ !! i); simpl in Hx; [|discriminate].
      by inversion Hx.
  - intros name rc Hf. eexists. eexists. split; [|split].
    + unfold Service.getCollectionDetails, Service.with_client, rethrow,
        try_catch, bind.
      rewrite Hc.
      rewrite (getCollection_found c name w rc Hh Hf).
      rewrite (count_found name _ rc); [|by apply healthy_record_call|exact Hf].
      reflexivity.
    + reflexivity.
    + reflexivity.
Qed.

Lemma listed_collections_report_zero_witness :
  let w := Samples.world_of [Samples.greeting; Samples.tagged] Samples.no_fault
             Samples.engine0 in
  (exists cols,
      Service.getCollections Samples.attached w
      = (Returned cols, Remote.record_call (Remote.ListCollections Samples.local) w)
      /\ map col_name cols
         = map Remote.rc_name (take Remote.list_page (Remote.collections w))
      /\ Forall (fun col => col_count col = 0%nat) cols)
  /\ (forall name rc,
        Remote.find_collection name (Remote.collections w) = Some rc ->
        exists d w',
          Service.getCollectionDetails Samples.attached name w = (Returned d, w')
          /\ col_name d = name
          /\ col_count d = length (Remote.rc_docs rc)).
Proof.
  apply (listed_collections_report_zero Samples.attached Samples.local).
  - reflexivity.
  - intros c. reflexivity.
Defined.

(** Run a [fetchDocuments] whose remote calls all succeed: unfold the
    frame, then serve the calls one after the other. *)
Ltac serve_calls name col Hclient Hhealthy Hfound :=
  let side := (first [exact Hfound
                     | repeat apply healthy_record_call; exact Hhealthy]) in
  unfold fetch_frame, try_finally, try_catch, bind, open_collection, lift,
    modify, Service.getClient;
  rewrite Hclient; cbn [fst snd];
  rewrite (getCollection_found _ _ _ _ Hhealthy Hfound); cbn [fst snd];
  repeat first
    [ rewrite (get_found name _ _ col) by side
    | rewrite (query_found name _ _ col) by side
    | rewrite (count_found name _ col) by side ];
  cbn [fst snd documents loading error totalDocuments setDocuments setLoading
       setError setTotalDocuments Remote.calls Remote.record_call].

Section ViewerFacts.
Import Remote.

Variables (s : Service.ChromaDBService) (c : ChromaClient) (name : string)
          (col : RemoteCollection) (w : World).
Hypothesis Hclient : Service.client s = Some c.
Hypothesis Hhealthy : healthy w.
Hypothesis Hfound : find_collection name (collections w) = Some col.

Lemma enhanced_fetch_total (page : Z) (search : string)
    (type : EnhancedViewer.SearchType)
    (filters : list EnhancedViewer.FilterClause) (v : ViewerState) :
  let r := EnhancedViewer.fetchDocuments s name page search type filters (v, w) in
  error (fst r) = None
  /\ loading (fst r) = false
  /\ totalDocuments (fst r) = length (rc_docs col)
  /\ last (calls (snd r)) = Some (Count name).
Proof using Hclient Hhealthy Hfound.
  unfold EnhancedViewer.fetchDocuments, EnhancedViewer.fetch_body.
  destruct (Js.truthy_str search); [destruct type|]; cbv beta iota zeta;
    serve_calls name col Hclient Hhealthy Hfound;
    rewrite last_snoc; by repeat split.
Qed.

Lemma basic_fetch_listing (page : Z) (v : ViewerState) :
  let r := BasicViewer.fetchDocuments s name page "" (v, w) in
  error (fst r) = None
  /\ totalDocuments (fst r) = length (rc_docs col)
  /\ last (calls (snd r)) = Some (Count name).
Proof using Hclient Hhealthy Hfound.
  unfold BasicViewer.fetchDocuments, BasicViewer.fetch_body.
  change (Js.truthy_str "") with false. cbv beta iota zeta.
  serve_calls name col Hclient Hhealthy Hfound.
  rewrite last_snoc. by repeat split.
Qed.

Lemma truthy_nonempty (search : string) :
  search <> "" -> Js.truthy_str search = true.
Proof.
  intros Hs. unfold Js.truthy_str.
  destruct (String.eqb search "") eqn:E; [|done].
  by apply String.eqb_eq in E.
Qed.

Lemma basic_fetch_search (page : Z) (search : string) (v : ViewerState) :
  search <> "" ->
  let r := BasicViewer.fetchDocuments s name page search (v, w) in
  error (fst r) = None
  /\ totalDocuments (fst r) = length (documents (fst r))
  /\ calls (snd r)
     = (calls w ++ [GetCollection c name;
                    Query name (BasicViewer.search_args search documentsPerPage)])%list.
Proof using Hclient Hhealthy Hfound.
  intros Hs.
  unfold BasicViewer.fetchDocuments, BasicViewer.fetch_body.
  rewrite (truthy_nonempty _ Hs). cbv beta iota zeta.
  serve_calls name col Hclient Hhealthy Hfound.
  repeat split. by rewrite <- app_assoc.
Qed.

End ViewerFacts.

(** C3 fails as stated: in the basic viewer a search over a collection of
    21 documents, answered with the 20 nearest that the request asks for,
    reports a total of 20, the number of results, while the collection's
    count is 21. *)
Lemma basic_search_total_is_not_collection_size :
  let w := Samples.world_of (Samples.numbered 21) Samples.no_fault
             Samples.engine0 in
  let r := BasicViewer.fetchDocuments Samples.attached "docs" 1 "hello"
             (Samples.blank, w) in
  error (fst r) = None
  /\ length (documents (fst r)) = 20%nat
  /\ totalDocuments (fst r) = 20%nat
  /\ fst (Remote.count {| Remote.h_name := "docs"; Remote.h_metadata := None |} w)
     = Returned 21%nat
  /\ totalDocuments (fst r) <> 21%nat.
Proof. vm_compute. repeat split; discriminate. Qed.

(** C3, amended: with a client installed, a healthy network and an
    existing collection, the enhanced viewer ends every request, in every
    mode, with no error and with the total set to the collection's size,
    obtained by a count call issued last; the basic viewer does the same
    for the listing without a search term, whereas for a search it issues
    no count call and sets the total to the number of results shown. *)
Theorem total_documents_by_viewer
    (s : Service.ChromaDBService) (c : Remote.ChromaClient) (name : string)
    (col : Remote.RemoteCollection) (w : Remote.World) :
  Service.client s = Some c ->
  healthy w ->
  Remote.find_collection name (Remote.collections w) = Some col ->
  (forall page search type filters v,
      let r := EnhancedViewer.fetchDocuments s name page search type filters (v, w) in
      error (fst r) = None
      /\ loading (fst r) = false
      /\ totalDocuments (fst r) = length (Remote.rc_docs col)
      /\ last (Remote.calls (snd r)) = Some (Remote.Count name))
  /\ (forall page v,
        let r := BasicViewer.fetchDocuments s name page "" (v, w) in
        error (fst r) = None
        /\ totalDocuments (fst r) = length (Remote.rc_docs col)
        /\ last (Remote.calls (snd r)) = Some (Remote.Count name))
  /\ (forall page search v,
        search <> "" ->
        let r := BasicViewer.fetchDocuments s name page search (v, w) in
        error (fst r) = None
        /\ totalDocuments (fst r) = length (documents (fst r))
        /\ Remote.calls (snd r)
           = (Remote.calls w
              ++ [Remote.GetCollection c name;
                  Remote.Query name (BasicViewer.search_args search documentsPerPage)])%list).
Proof.
  intros Hc Hh Hf. split; [|split].
  - intros. by apply (enhanced_fetch_total s c name col w).
  - intros. by apply (basic_fetch_listing s c name col w).
  - intros. by apply (basic_fetch_search s c name col w).
Qed.

Lemma total_documents_by_viewer_witness :
  let w := Samples.world_of [Samples.greeting; Samples.tagged] Samples.no_fault
             Samples.engine0 in
  let r := EnhancedViewer.fetchDocuments Samples.attached "docs" 1 "hello"
             EnhancedViewer.SemanticSearch [] (Samples.blank, w) in
  error (fst r) = None
  /\ loading (fst r) = false
  /\ totalDocuments (fst r) = 2%nat
  /\ last (Remote.calls (snd r)) = Some (Remote.Count "docs").
Proof.
  apply (total_documents_by_viewer Samples.attached Samples.local "docs"
           {| Remote.rc_name := "docs"; Remote.rc_metadata := None;
              Remote.rc_docs := [Samples.greeting; Samples.tagged] |}
           (Samples.world_of [Samples.greeting; Samples.tagged] Samples.no_fault
              Samples.engine0)).
  - reflexivity.
  - intros c. reflexivity.
  - reflexivity.
Defined.

Section WhereFacts.
Import EnhancedViewer.

Lemma add_clause_empty (acc : Filter) (f : FilterClause) :
  f_field f = "" \/ f_value f = "" -> add_clause acc f = acc.
Proof.
  intros [H|H]; unfold add_clause; rewrite H; simpl.
  - reflexivity.
  - by rewrite andb_false_r.
Qed.

Lemma build_where_skip (before after : list FilterClause) (f : FilterClause) :
  f_field f = "" \/ f_value f = "" ->
  build_where (before ++ f :: after) = build_where (before ++ after).
Proof.
  intros H. unfold build_where. rewrite !fold_left_app. simpl.
  by rewrite add_clause_empty.
Qed.

Lemma where_arg_no_keys (whereClause : Filter) :
  keys whereClause = [] -> where_arg whereClause = None.
Proof. intros H. unfold where_arg. by rewrite H. Qed.

End WhereFacts.

(** C5: a filter clause whose field or value is empty adds nothing to the
    where object, whatever its operator and wherever it stands in the
    list; and when the where object built from the clauses has no keys,
    the request carries no where filter, is the request of the plain
    listing, and the metadata search ends exactly as the listing without
    a search term does. *)
Theorem empty_clauses_and_empty_filter
    (before after filters : list EnhancedViewer.FilterClause)
    (f : EnhancedViewer.FilterClause)
    (s : Service.ChromaDBService) (name : string) (page : Z) (search : string)
    (limit : nat) (offset : Z) (v : ViewerState) (w : Remote.World) :
  EnhancedViewer.f_field f = "" \/ EnhancedViewer.f_value f = "" ->
  EnhancedViewer.keys (EnhancedViewer.build_where filters) = [] ->
  EnhancedViewer.add_clause (EnhancedViewer.build_where before) f
  = EnhancedViewer.build_where before
  /\ EnhancedViewer.build_where (before ++ f :: after)
     = EnhancedViewer.build_where (before ++ after)
  /\ EnhancedViewer.where_arg (EnhancedViewer.build_where filters) = None
  /\ EnhancedViewer.metadata_args filters limit offset
     = EnhancedViewer.list_args limit offset
  /\ EnhancedViewer.fetchDocuments s name page search
       EnhancedViewer.MetadataSearch filters (v, w)
     = EnhancedViewer.fetchDocuments s name page ""
         EnhancedViewer.MetadataSearch filters (v, w).
Proof.
  intros Hf Hk.
  split; [by apply add_clause_empty|].
  split; [by apply build_where_skip|].
  split; [by apply where_arg_no_keys|].
  assert (Hargs : forall l o, EnhancedViewer.metadata_args filters l o
                              = EnhancedViewer.list_args l o).
  { intros l o. unfold EnhancedViewer.metadata_args.
    by rewrite (where_arg_no_keys _ Hk). }
  split; [apply Hargs|].
  unfold EnhancedViewer.fetchDocuments, EnhancedViewer.fetch_body.
  change (Js.truthy_str "") with false.
  destruct (Js.truthy_str search); [|reflexivity].
  cbv beta iota zeta. by rewrite Hargs.
Qed.

Lemma empty_clauses_and_empty_filter_witness :
  let blank_row := {| EnhancedViewer.f_field := ""; EnhancedViewer.f_operator := "equals";
                      EnhancedViewer.f_value := ""; EnhancedViewer.f_type := "string" |} in
  let named := {| EnhancedViewer.f_field := "category";
                  EnhancedViewer.f_operator := "contains";
                  EnhancedViewer.f_value := "greet"; EnhancedViewer.f_type := "string" |} in
  let valueless := {| EnhancedViewer.f_field := "category";
                      EnhancedViewer.f_operator := "greater";
                      EnhancedViewer.f_value := ""; EnhancedViewer.f_type := "string" |} in
  let w := Samples.world_of [Samples.greeting] Samples.no_fault Samples.engine0 in
  EnhancedViewer.build_where ([named] ++ valueless :: [blank_row])
  = EnhancedViewer.build_where ([named] ++ [blank_row])
  /\ EnhancedViewer.where_arg (EnhancedViewer.build_where [blank_row; valueless]) = None
  /\ EnhancedViewer.fetchDocuments Samples.attached "docs" 1 "x"
       EnhancedViewer.MetadataSearch [blank_row; valueless] (Samples.blank, w)
     = EnhancedViewer.fetchDocuments Samples.attached "docs" 1 ""
         EnhancedViewer.MetadataSearch [blank_row; valueless] (Samples.blank, w).
Proof.
  intros blank_row named valueless w.
  destruct (empty_clauses_and_empty_filter [named] [blank_row]
              [blank_row; valueless] valueless Samples.attached "docs" 1 "x"
              20 0 Samples.blank w) as (_ & H1 & H2 & _ & H3).
  - right. reflexivity.
  - reflexivity.
  - split; [exact H1|]. split; [exact H2|exact H3].
Defined.

Section RoundTripFacts.
Import Remote.






End RoundTripFacts.




(* ===================================================================== *)
(** ** Further properties of the service                                  *)
(* ===================================================================== *)

(** X1: when the heartbeat answers, connect returns a session record with
    the form's name, host and port, connected = true and the id
    "conn_<clock>", whatever the service held before; afterwards the
    service holds a client for that host and port, getConnection returns
    the record and isConnected is true. *)
Theorem connect_installs_session
    (info : Service.ConnectionInfo) (s : Service.ChromaDBService)
    (w : Remote.World) :
  Remote.fault w (Remote.Heartbeat
                    {| Remote.cl_host := Service.ci_host info;
                       Remote.cl_port := Service.ci_port info;
                       Remote.cl_ssl := false |}) = None ->
  exists conn s' w',
    Service.connect info (s, w) = (Returned conn, (s', w'))
    /\ conn = {| conn_id := "conn_" +:+ pretty (Remote.now w);
                 conn_name := Service.ci_name info;
                 conn_host := Service.ci_host info;
                 conn_port := Service.ci_port info;
                 conn_connected := true;
                 conn_createdAt := Remote.now w |}
    /\ Service.getClient s'
       = Some {| Remote.cl_host := Service.ci_host info;
                 Remote.cl_port := Service.ci_port info;
                 Remote.cl_ssl := false |}
    /\ Service.getConnection s' = Some conn
    /\ Service.isConnected s' = true
    /\ Remote.collections w' = Remote.collections w.
Proof.
  intros Hf. eexists. eexists. eexists. split.
  - unfold Service.connect, rethrow, try_catch, bind, modify, lift.
    cbn [fst snd]. unfold Remote.heartbeat, Remote.rpc. rewrite Hf.
    unfold Remote.clock. cbn [fst snd Remote.now Remote.record_call
                              Remote.with_collections].
    reflexivity.
  - repeat split.
Qed.

Lemma connect_installs_session_witness :
  exists conn s' w',
    Service.connect Samples.local_info
      (Service.initial, Samples.world_of [] Samples.no_fault Samples.engine0)
    = (Returned conn, (s', w'))
    /\ Service.isConnected s' = true.
Proof.
  destruct (connect_installs_session Samples.local_info Service.initial
              (Samples.world_of [] Samples.no_fault Samples.engine0))
    as (conn & s' & w' & H & _ & _ & _ & Hc & _).
  - reflexivity.
  - exists conn, s', w'. split; [exact H|exact Hc].
Defined.

Section MissingCollection.
Import Remote Service.

Variables (s : ChromaDBService) (c : ChromaClient) (name : string) (w : World).
Hypothesis Hclient : client s = Some c.
Hypothesis Hcall : fault w (GetCollection c name) = None.
Hypothesis Hmissing : find_collection name (collections w) = None.

Lemma getCollection_missing :
  getCollection c name w
  = (Threw (en_missing (engine w) name), record_call (GetCollection c name) w).
Proof using Hcall Hmissing.
  unfold getCollection, rpc, reading. by rewrite Hcall, Hmissing.
Qed.

Lemma with_missing_collection {A : Type} (prefix : string)
    (k : Handle -> Eff World A) :
  with_client s (fun c' => rethrow prefix (bind (getCollection c' name) k)) w
  = (Threw (Js.ErrorObj
              (prefix +:+ Js.message_or "Unknown error" (en_missing (engine w) name))),
     record_call (GetCollection c name) w).
Proof using Hclient Hcall Hmissing.
  unfold with_client, rethrow, try_catch, bind. rewrite Hclient.
  rewrite getCollection_missing. reflexivity.
Qed.

End MissingCollection.

(** X2: with a client installed, when the named collection does not
    exist, each of getCollectionDetails, getCollectionSchema,
    queryCollection, addDocument, updateDocument and deleteDocument fails
    with its own prefix followed by the database's message (or "Unknown
    error" when what was thrown is not an Error); the only remote call
    issued is the getCollection lookup, and the store is untouched. *)
Theorem operations_on_missing_collection
    (s : Service.ChromaDBService) (c : Remote.ChromaClient) (name : string)
    (w : Remote.World) (q : QueryRequest) (nd : Service.NewDocument)
    (d : Document) (id_ : string) :
  Service.client s = Some c ->
  Remote.fault w (Remote.GetCollection c name) = None ->
  Remote.find_collection name (Remote.collections w) = None ->
  let reason := Js.message_or "Unknown error"
                  (Remote.en_missing (Remote.engine w) name) in
  let after := Remote.record_call (Remote.GetCollection c name) w in
  Service.getCollectionDetails s name w
  = (Threw (Js.ErrorObj ("Failed to get collection details: " +:+ reason)), after)
  /\ Service.getCollectionSchema s name w
     = (Threw (Js.ErrorObj ("Failed to get collection schema: " +:+ reason)), after)
  /\ Service.queryCollection s name q w
     = (Threw (Js.ErrorObj ("Failed to query collection: " +:+ reason)), after)
  /\ Service.addDocument s name nd w
     = (Threw (Js.ErrorObj ("Failed to add document: " +:+ reason)), after)
  /\ Service.updateDocument s name d w
     = (Threw (Js.ErrorObj ("Failed to update document: " +:+ reason)), after)
  /\ Service.deleteDocument s name id_ w
     = (Threw (Js.ErrorObj ("Failed to delete document: " +:+ reason)), after)
  /\ Remote.collections after = Remote.collections w.
Proof.
  intros Hc Hcall Hm reason after.
  repeat split;
    apply (with_missing_collection s c name w Hc Hcall Hm).
Qed.

Lemma operations_on_missing_collection_witness :
  Service.deleteDocument Samples.attached "absent" "d1"
    (Samples.world_of [Samples.greeting] Samples.no_fault Samples.engine0)
  = (Threw (Js.ErrorObj
       "Failed to delete document: Collection absent does not exist"),
     Remote.record_call (Remote.GetCollection Samples.local "absent")
       (Samples.world_of [Samples.greeting] Samples.no_fault Samples.engine0)).
Proof.
  destruct (operations_on_missing_collection Samples.attached Samples.local
              "absent"
              (Samples.world_of [Samples.greeting] Samples.no_fault Samples.engine0)
              {| req_queryText := None; req_queryVector := None;
                 req_nResults := None; req_where := None;
                 req_whereDocument := None; req_include := None |}
              {| Service.nd_content := ""; Service.nd_metadata := None;
                 Service.nd_embedding := None |}
              {| doc_id := "d1"; doc_content := ""; doc_metadata := None;
                 doc_embedding := None |}
              "d1") as (_ & _ & _ & _ & _ & H & _).
  - reflexivity.
  - reflexivity.
  - reflexivity.
  - exact H.
Defined.

(** X3: the schema is read off the first document alone.  With a client
    installed, a healthy network and a collection whose first document is
    [d], getCollectionSchema returns one field per metadata entry of [d],
    in entry order, named by the key, typed by [typeof] of the value and
    nullable exactly for null; no field when [d] has no metadata; the
    documents after the first play no part. *)
Theorem schema_reads_first_document
    (s : Service.ChromaDBService) (c : Remote.ChromaClient) (name : string)
    (col : Remote.RemoteCollection) (d : Remote.StoredDoc)
    (rest : list Remote.StoredDoc) (w : Remote.World) :
  Service.client s = Some c ->
  healthy w ->
  Remote.find_collection name (Remote.collections w) = Some col ->
  Remote.rc_docs col = d :: rest ->
  exists schema,
    fst (Service.getCollectionSchema s name w) = Returned schema
    /\ map fld_name (sch_fields schema)
       = map fst (default [] (Remote.sd_metadata d))
    /\ map fld_type (sch_fields schema)
       = map (fun e => Js.typeof (snd e)) (default [] (Remote.sd_metadata d))
    /\ map fld_sample (sch_fields schema)
       = map snd (default [] (Remote.sd_metadata d))
    /\ Forall (fun f => fld_nullable f = true <-> fld_sample f = Js.Null)
              (sch_fields schema).
Proof.
  intros Hc Hh Hf Hdocs.
  exists {| sch_name := name; sch_vectorDimension := 1536;
            sch_distanceFunction := "cosine";
            sch_fields := map Service.field_of (default [] (Remote.sd_metadata d)) |}.
  split.
  - unfold Service.getCollectionSchema, Service.with_client, rethrow,
      try_catch, bind.
    rewrite Hc. rewrite (getCollection_found c name w col Hh Hf).
    rewrite (get_found name Service.sample_args _ col)
      by (first [exact Hf | by apply healthy_record_call]).
    rewrite Hdocs. cbn [fst]. f_equal. f_equal.
    unfold Remote.select, Service.sample_args. cbn.
    by destruct (Remote.sd_metadata d).
  - cbn [sch_fields]. rewrite <- !list_fmap_compose.
    repeat split.
    apply Forall_fmap, Forall_true. intros [k v]. cbn.
    destruct v; split; intros; (done || discriminate).
Qed.

Lemma schema_reads_first_document_witness :
  exists schema,
    fst (Service.getCollectionSchema Samples.attached "docs"
           (Samples.world_of [Samples.greeting; Samples.tagged] Samples.no_fault
              Samples.engine0))
    = Returned schema
    /\ map fld_name (sch_fields schema) = ["category"].
Proof.
  destruct (schema_reads_first_document Samples.attached Samples.local "docs"
              {| Remote.rc_name := "docs"; Remote.rc_metadata := None;
                 Remote.rc_docs := [Samples.greeting; Samples.tagged] |}
              Samples.greeting [Samples.tagged]
              (Samples.world_of [Samples.greeting; Samples.tagged] Samples.no_fault
                 Samples.engine0))
    as (schema & H & Hn & _).
  - reflexivity.
  - intros c. reflexivity.
  - reflexivity.
  - reflexivity.
  - exists schema. split; [exact H|exact Hn].
Defined.

Section WhatIsSent.
Import Remote.

(** A read adds its call to the log and changes nothing else, whether it
    is served or not. *)
Lemma reading_world {A : Type} (call : Call) (n : string)
    (f : RemoteCollection -> World -> A) (w : World) :
  snd (rpc call (reading n f) w) = record_call call w.
Proof.
  unfold rpc, reading. destruct (fault w call); [reflexivity|].
  by destruct (find_collection n (collections w)).
Qed.

Lemma query_world (h : Handle) (a : QueryArgs) (w : World) :
  snd (query h a w) = record_call (Query (h_name h) a) w.
Proof. apply reading_world. Qed.

Lemma get_world (h : Handle) (a : GetArgs) (w : World) :
  snd (get h a w) = record_call (Get (h_name h) a) w.
Proof. apply reading_world. Qed.

Lemma count_world (h : Handle) (w : World) :
  snd (count h w) = record_call (Count (h_name h)) w.
Proof. apply reading_world. Qed.

End WhatIsSent.

(** X4: the query the service sends never asks for 0 results (a missing
    or zero nResults becomes 10, any other number is kept), and it never
    carries an empty query text: the text is sent, alone in its list,
    only when it is not empty.  These are the options of the one query
    call queryCollection issues once the collection lookup has
    succeeded; when the lookup fails no query is sent. *)
Theorem query_options_never_empty
    (q : QueryRequest) (c : Remote.ChromaClient)
    (conn : option ChromaConnection) (name : string) (w : Remote.World) :
  let s := {| Service.client := Some c; Service.connection := conn |} in
  Remote.qa_nResults (Service.query_options q) <> 0%Z
  /\ (Remote.qa_nResults (Service.query_options q) = 10%Z
      \/ req_nResults q = Some (Remote.qa_nResults (Service.query_options q)))
  /\ (Remote.qa_queryTexts (Service.query_options q) = None
      \/ exists t, t <> ""
                   /\ req_queryText q = Some t
                   /\ Remote.qa_queryTexts (Service.query_options q) = Some [t])
  /\ match Remote.getCollection c name w with
     | (Returned h, w1) =>
         Remote.calls (snd (Service.queryCollection s name q w))
         = (Remote.calls w1
            ++ [Remote.Query (Remote.h_name h) (Service.query_options q)])%list
     | (Threw _, w1) =>
         Remote.calls (snd (Service.queryCollection s name q w)) = Remote.calls w1
     end.
Proof.
  intros s.
  split; [|split; [|split]].
  - unfold Service.query_options. cbn [Remote.qa_nResults].
    destruct (req_nResults q) as [n|]; [|done].
    destruct (Z.eqb n 0) eqn:E; [done|]. by apply Z.eqb_neq in E.
  - unfold Service.query_options. cbn [Remote.qa_nResults].
    destruct (req_nResults q) as [n|]; [|by left].
    destruct (Z.eqb n 0); [by left|by right].
  - unfold Service.query_options. cbn [Remote.qa_queryTexts].
    destruct (req_queryText q) as [t|]; [|by left].
    unfold Js.truthy_str. destruct (String.eqb t "") eqn:E; cbn; [by left|].
    right. exists t. apply String.eqb_neq in E. done.
  - pose proof (queryCollection_by_outcome c conn name w q) as H.
    destruct (Remote.getCollection c name w) as [[h|e] w1].
    + pose proof (query_world h (Service.query_options q) w1) as Hw.
      destruct (Remote.query h (Service.query_options q) w1) as [[g|e] w2];
        unfold s; rewrite H; cbn [snd] in *; by rewrite Hw.
    + unfold s. by rewrite H.
Qed.

(** X5: inferFieldType answers with one of the five SchemaField type
    names for every value; it agrees with [typeof] on strings, numbers,
    booleans and plain objects, answers "array" for arrays, and falls
    back to "string" for null and undefined. *)
Theorem inferFieldType_classifies (v : Js.Value) :
  In (Service.inferFieldType v) ["string"; "number"; "boolean"; "array"; "object"]
  /\ match v with
     | Js.Arr _ => Service.inferFieldType v = "array"
     | Js.Null | Js.Undefined => Service.inferFieldType v = "string"
     | _ => Service.inferFieldType v = Js.typeof v
     end.
Proof. destruct v; vm_compute; intuition. Qed.

Lemma or_num_default (x : option Z) : Js.or_num x 0 = default 0%Z x.
Proof.
  destruct x as [n|]; cbn; [|reflexivity].
  destruct (Z.eqb n 0) eqn:E; [|reflexivity]. apply Z.eqb_eq in E. by subst.
Qed.

(** X6: queryCollection's result list has one entry per id of the first
    row of the response; the distance at position [i] is the response's
    distance at row 0, position [i], and 0 when the distances, the row or
    the entry are missing; so a response without distances gives
    distance 0 throughout.  That list is what queryCollection returns:
    once the collection lookup and the query are served, it returns the
    results read off the response served. *)
Theorem query_results_distances
    (r : Remote.QueryResponse)
    (ids : option (list (option (list string))))
    (docs : option (list (option (list (option string)))))
    (ms : option (list (option (list (option Metadata)))))
    (c : Remote.ChromaClient) (conn : option ChromaConnection) (name : string)
    (w : Remote.World) (request : QueryRequest) :
  match Remote.getCollection c name w with
  | (Returned h, w1) =>
      match Remote.query h (Service.query_options request) w1 with
      | (Returned served, w2) =>
          Service.queryCollection
            {| Service.client := Some c; Service.connection := conn |}
            name request w
          = (Returned (Service.query_results served), w2)
      | (Threw e, w2) =>
          Service.queryCollection
            {| Service.client := Some c; Service.connection := conn |}
            name request w
          = (Threw (Js.ErrorObj ("Failed to query collection: "
                                 +:+ Js.message_or "Unknown error" e)), w2)
      end
  | (Threw e, w1) =>
      Service.queryCollection
        {| Service.client := Some c; Service.connection := conn |}
        name request w
      = (Threw (Js.ErrorObj ("Failed to query collection: "
                             +:+ Js.message_or "Unknown error" e)), w1)
  end
  /\ length (Service.query_results r)
  = length (default [] (Service.row0 (Remote.qr_ids r)))
  /\ map res_distance (Service.query_results r)
     = imap (fun i _ =>
               default 0%Z
                 (mjoin (Service.row0 (Remote.qr_distances r) ≫= fun l => l !! i)))
            (default [] (Service.row0 (Remote.qr_ids r)))
  /\ map res_distance
       (Service.query_results
          {| Remote.qr_ids := ids; Remote.qr_documents := docs;
             Remote.qr_metadatas := ms; Remote.qr_distances := None |})
     = map (fun _ => 0%Z) (default [] (Service.row0 ids)).
Proof.
  assert (H : forall r', map res_distance (Service.query_results r')
     = imap (fun i _ =>
               default 0%Z
                 (mjoin (Service.row0 (Remote.qr_distances r') ≫= fun l => l !! i)))
            (default [] (Service.row0 (Remote.qr_ids r')))).
  { intros r'. unfold Service.query_results.
    destruct (Service.row0 (Remote.qr_ids r')) as [l|]; simpl; [|reflexivity].
    rewrite query_loop_imap. apply list_eq. intros i.
    rewrite list_lookup_fmap, !list_lookup_imap. destruct (l !! i); [|done].
    cbn. unfold Service.cell. by rewrite or_num_default, opt_index_spec. }
  split; [apply queryCollection_by_outcome|].
  split; [|split].
  - rewrite <- (length_map res_distance), H. by rewrite length_imap.
  - apply H.
  - rewrite H. cbn [Remote.qr_ids Remote.qr_distances].
    apply list_eq. intros i.
    rewrite list_lookup_fmap, list_lookup_imap.
    by destruct (default [] (Service.row0 ids) !! i).
Qed.

Section GeneratedIds.
Import Remote Service.

Lemma list_ascii_append (a b : string) :
  String.list_ascii_of_string (a +:+ b)
  = (String.list_ascii_of_string a ++ String.list_ascii_of_string b)%list.
Proof.
  induction a as [|x a IH]; [reflexivity|].
  change (String x a +:+ b) with (String x (a +:+ b)).
  cbn [String.list_ascii_of_string]. rewrite IH. reflexivity.
Qed.

Lemma append_cancel_right (a b t : string) : a +:+ t = b +:+ t -> a = b.
Proof.
  intros H. apply (f_equal String.list_ascii_of_string) in H.
  rewrite !list_ascii_append in H. apply app_inv_tail in H.
  rewrite <- (String.string_of_list_ascii_of_string a),
          <- (String.string_of_list_ascii_of_string b).
  by rewrite H.
Qed.

Lemma getCollection_keeps_clock (c : ChromaClient) (name : string) (w : World) :
  now (snd (getCollection c name w)) = now w
  /\ random36 (snd (getCollection c name w)) = random36 w.
Proof.
  unfold getCollection, rpc, reading.
  destruct (fault w _); [done|].
  by destruct (find_collection name (collections w)).
Qed.

(** The id addDocument returns is the one it builds from the clock and
    the random suffix. *)
Lemma addDocument_returns_generated_id (s : ChromaDBService) (name : string)
    (nd : NewDocument) (w w' : World) (id_ : string) :
  addDocument s name nd w = (Returned id_, w') ->
  id_ = "doc_" +:+ pretty (now w) +:+ "_" +:+ random36 w.
Proof.
  unfold addDocument, with_client, rethrow, try_catch, bind, throw.
  destruct (client s) as [c|]; [|discriminate].
  pose proof (getCollection_keeps_clock c name w) as [Hn Hr].
  destruct (getCollection c name w) as [[h|e] w1]; [|discriminate].
  cbn [snd] in Hn, Hr.
  unfold clock, random_suffix. rewrite Hn, Hr.
  destruct (add h _ _ _ w1) as [[[]|e] w2]; [|discriminate].
  unfold ret. by intros [= <- _].
Qed.

End GeneratedIds.

(** X7: an id returned by addDocument is "doc_<clock>_<suffix>", hence
    never empty; two additions return different ids when they read the
    same clock value with different random suffixes, or different clock
    values with the same suffix. *)
Theorem generated_ids_differ
    (s1 s2 : Service.ChromaDBService) (name1 name2 : string)
    (nd1 nd2 : Service.NewDocument) (w1 w1' w2 w2' : Remote.World)
    (id1 id2 : string) :
  Service.addDocument s1 name1 nd1 w1 = (Returned id1, w1') ->
  Service.addDocument s2 name2 nd2 w2 = (Returned id2, w2') ->
  (Remote.now w1 = Remote.now w2 /\ Remote.random36 w1 <> Remote.random36 w2)
  \/ (Remote.now w1 <> Remote.now w2 /\ Remote.random36 w1 = Remote.random36 w2) ->
  id1 <> "" /\ id2 <> "" /\ id1 <> id2.
Proof.
  intros H1 H2 Hd.
  apply addDocument_returns_generated_id in H1.
  apply addDocument_returns_generated_id in H2.
  subst id1 id2. split; [done|]. split; [done|].
  intros Heq. apply (inj (String.append "doc_")) in Heq.
  destruct Hd as [[Hn Hr]|[Hn Hr]].
  - rewrite Hn in Heq. apply (inj (String.append _)) in Heq.
    apply (inj (String.append "_")) in Heq. done.
  - rewrite Hr in Heq. apply append_cancel_right in Heq.
    apply (inj pretty) in Heq. done.
Qed.

Lemma generated_ids_differ_witness :
  let w1 := Samples.world_of [] Samples.no_fault Samples.engine0 in
  let w2 := {| Remote.collections := Remote.collections w1;
               Remote.fault := Samples.no_fault;
               Remote.engine := Samples.engine0;
               Remote.now := 1700000000001;
               Remote.random36 := "k3j9x0q1z";
               Remote.calls := [] |} in
  let nd := {| Service.nd_content := "a";
               Service.nd_metadata := Some [("category", Js.Str "greeting")];
               Service.nd_embedding := None |} in
  exists id1 id2,
    fst (Service.addDocument Samples.attached "docs" nd w1) = Returned id1
    /\ fst (Service.addDocument Samples.attached "docs" nd w2) = Returned id2
    /\ id1 <> id2.
Proof.
  intros w1 w2 nd.
  exists "doc_1700000000000_k3j9x0q1z", "doc_1700000000001_k3j9x0q1z".
  split; [reflexivity|]. split; [reflexivity|].
  apply (generated_ids_differ Samples.attached Samples.attached "docs" "docs"
           nd nd w1 (snd (Service.addDocument Samples.attached "docs" nd w1))
           w2 (snd (Service.addDocument Samples.attached "docs" nd w2))).
  - reflexivity.
  - reflexivity.
  - right. split; [discriminate|reflexivity].
Defined.

Section DeleteFacts.
Import Remote.

Lemma delete_found (name : string) (ids : list string) (w : World)
    (col : RemoteCollection) :
  healthy w ->
  find_collection name (collections w) = Some col ->
  delete (handle_of col) ids w
  = (Returned tt,
     with_collections
       (store_docs name (List.filter (fun d => negb (has_id ids d)) (rc_docs col))
                   (collections w))
       (record_call (Delete name ids) w)).
Proof.
  intros Hh Hf. unfold delete. simpl.
  rewrite (find_collection_name _ _ _ Hf).
  by rewrite (rpc_writing _ _ _ _ col).
Qed.

Lemma filter_after_removal (ids : list string) (docs : list StoredDoc) :
  List.filter (has_id ids) (List.filter (fun d => negb (has_id ids d)) docs) = [].
Proof.
  induction docs as [|d docs IH]; cbn; [done|].
  destruct (has_id ids d) eqn:E; cbn; [done|]. by rewrite E.
Qed.

End DeleteFacts.

(** X8: with a client installed, a healthy network and an existing
    collection, deleteDocument succeeds, and the id search of the
    enhanced viewer for the deleted id (not empty) then shows no document
    and a total equal to the number of documents with another id. *)
Theorem deleted_document_is_not_found
    (s : Service.ChromaDBService) (c : Remote.ChromaClient) (name : string)
    (col : Remote.RemoteCollection) (id_ : string) (page : Z)
    (filters : list EnhancedViewer.FilterClause) (v : ViewerState)
    (w : Remote.World) :
  Service.client s = Some c ->
  healthy w ->
  Remote.find_collection name (Remote.collections w) = Some col ->
  id_ <> "" ->
  exists w',
    Service.deleteDocument s name id_ w = (Returned tt, w')
    /\ error (fst (EnhancedViewer.fetchDocuments s name page id_
                     EnhancedViewer.IdSearch filters (v, w'))) = None
    /\ documents (fst (EnhancedViewer.fetchDocuments s name page id_
                         EnhancedViewer.IdSearch filters (v, w'))) = []
    /\ totalDocuments (fst (EnhancedViewer.fetchDocuments s name page id_
                              EnhancedViewer.IdSearch filters (v, w')))
       = length (List.filter
                   (fun d => negb (String.eqb (Remote.sd_id d) id_))
                   (Remote.rc_docs col)).
Proof.
  intros Hc Hh Hf Hid.
  set (docs' := List.filter (fun d => negb (Remote.has_id [id_] d))
                  (Remote.rc_docs col)).
  set (col' := {| Remote.rc_name := Remote.rc_name col;
                  Remote.rc_metadata := Remote.rc_metadata col;
                  Remote.rc_docs := docs' |}).
  set (w' := Remote.with_collections
               (Remote.store_docs name docs' (Remote.collections w))
               (Remote.record_call (Remote.Delete name [id_])
                  (Remote.record_call (Remote.GetCollection c name) w))).
  assert (Hdel : Service.deleteDocument s name id_ w = (Returned tt, w')).
  { unfold Service.deleteDocument, Service.with_client, rethrow, try_catch, bind.
    rewrite Hc. rewrite (getCollection_found c name w col Hh Hf).
    rewrite (delete_found name _ _ col)
      by (first [exact Hf | by apply healthy_record_call]).
    reflexivity. }
  assert (Hh' : healthy w').
  { apply healthy_with_collections. by repeat apply healthy_record_call. }
  assert (Hf' : Remote.find_collection name (Remote.collections w') = Some col').
  { unfold w'. cbn [Remote.collections Remote.with_collections].
    by apply find_collection_store. }
  exists w'. split; [exact Hdel|].
  unfold EnhancedViewer.fetchDocuments, EnhancedViewer.fetch_body.
  rewrite (truthy_nonempty _ Hid). cbv beta iota zeta.
  serve_calls name col' Hc Hh' Hf'.
  split; [reflexivity|].
  unfold col'. cbn [Remote.rc_docs].
  split.
  - unfold Remote.select, EnhancedViewer.id_args.
    cbn [Remote.ga_ids Remote.ga_where Remote.ga_whereDocument Remote.ga_offset
         Remote.ga_limit].
    unfold docs'. rewrite filter_after_removal. reflexivity.
  - unfold docs'. f_equal. apply List.filter_ext. intros d.
    unfold Remote.has_id. cbn. by rewrite orb_false_r.
Qed.

Lemma deleted_document_is_not_found_witness :
  exists w',
    Service.deleteDocument Samples.attached "docs" "d1"
      (Samples.world_of [Samples.greeting; Samples.tagged] Samples.no_fault
         Samples.engine0)
    = (Returned tt, w')
    /\ documents (fst (EnhancedViewer.fetchDocuments Samples.attached "docs" 1 "d1"
                         EnhancedViewer.IdSearch [] (Samples.blank, w'))) = [].
Proof.
  destruct (deleted_document_is_not_found Samples.attached Samples.local "docs"
              {| Remote.rc_name := "docs"; Remote.rc_metadata := None;
                 Remote.rc_docs := [Samples.greeting; Samples.tagged] |}
              "d1" 1 [] Samples.blank
              (Samples.world_of [Samples.greeting; Samples.tagged] Samples.no_fault
                 Samples.engine0))
    as (w' & H & _ & Hd & _).
  - reflexivity.
  - intros c. reflexivity.
  - reflexivity.
  - discriminate.
  - exists w'. split; [exact H|exact Hd].
Defined.

(* ===================================================================== *)
(** ** Further properties of the document viewers                         *)
(* ===================================================================== *)

(** X9: when the service holds no client, both viewers end a fetch with
    the error "Collection not found" (not "Not connected"), loading off,
    the documents and the total as they were, and no remote call. *)
Theorem fetch_without_client
    (conn : option ChromaConnection) (name : string) (page : Z)
    (search : string) (type : EnhancedViewer.SearchType)
    (filters : list EnhancedViewer.FilterClause) (v : ViewerState)
    (w : Remote.World) :
  let s := {| Service.client := None; Service.connection := conn |} in
  let stopped := ({| documents := documents v; loading := false;
                     error := Some "Collection not found";
                     totalDocuments := totalDocuments v |}, w) in
  BasicViewer.fetchDocuments s name page search (v, w) = stopped
  /\ EnhancedViewer.fetchDocuments s name page search type filters (v, w) = stopped.
Proof. split; reflexivity. Qed.

Section CountFails.
Import Remote.

Variables (s : Service.ChromaDBService) (c : ChromaClient) (name : string)
          (col : RemoteCollection) (w : World) (e : Js.Thrown).
Hypothesis Hclient : Service.client s = Some c.
Hypothesis Hfound : find_collection name (collections w) = Some col.
Hypothesis Hcount : fault w (Count name) = Some e.
Hypothesis Hothers : forall call, call <> Count name -> fault w call = None.




End CountFails.




(** X11: a search that does not page.  With a search term that is not
    empty, the semantic search and the id search of the enhanced viewer,
    and the search of the basic viewer, end in the same state whatever
    page number they are given: the request carries no offset. *)
Theorem search_ignores_page
    (s : Service.ChromaDBService) (name : string) (page page' : Z)
    (search : string) (filters : list EnhancedViewer.FilterClause)
    (v : ViewerState) (w : Remote.World) :
  search <> "" ->
  EnhancedViewer.fetchDocuments s name page search
    EnhancedViewer.SemanticSearch filters (v, w)
  = EnhancedViewer.fetchDocuments s name page' search
      EnhancedViewer.SemanticSearch filters (v, w)
  /\ EnhancedViewer.fetchDocuments s name page search
       EnhancedViewer.IdSearch filters (v, w)
     = EnhancedViewer.fetchDocuments s name page' search
         EnhancedViewer.IdSearch filters (v, w)
  /\ BasicViewer.fetchDocuments s name page search (v, w)
     = BasicViewer.fetchDocuments s name page' search (v, w).
Proof.
  intros Hs. pose proof (truthy_nonempty _ Hs) as Ht.
  unfold EnhancedViewer.fetchDocuments, EnhancedViewer.fetch_body,
    BasicViewer.fetchDocuments, BasicViewer.fetch_body.
  rewrite Ht. repeat split.
Qed.

Lemma search_ignores_page_witness :
  EnhancedViewer.fetchDocuments Samples.attached "docs" 1 "hello"
    EnhancedViewer.SemanticSearch []
    (Samples.blank, Samples.world_of [Samples.greeting] Samples.no_fault
                      Samples.engine0)
  = EnhancedViewer.fetchDocuments Samples.attached "docs" 2 "hello"
      EnhancedViewer.SemanticSearch []
      (Samples.blank, Samples.world_of [Samples.greeting] Samples.no_fault
                        Samples.engine0).
Proof.
  apply (search_ignores_page Samples.attached "docs" 1 2 "hello" []
           Samples.blank
           (Samples.world_of [Samples.greeting] Samples.no_fault Samples.engine0)).
  discriminate.
Defined.

(** X12: the regex mode has no branch of its own: whatever the search
    term and the filters, it ends as the plain listing of that page does;
    and with an empty search term every mode is the plain listing. *)
Theorem regex_and_empty_search_are_listing
    (s : Service.ChromaDBService) (name : string) (page : Z)
    (search : string) (type type' : EnhancedViewer.SearchType)
    (filters filters' : list EnhancedViewer.FilterClause)
    (v : ViewerState) (w : Remote.World) :
  EnhancedViewer.fetchDocuments s name page search
    EnhancedViewer.RegexSearch filters (v, w)
  = EnhancedViewer.fetchDocuments s name page "" type' filters' (v, w)
  /\ EnhancedViewer.fetchDocuments s name page "" type filters (v, w)
     = EnhancedViewer.fetchDocuments s name page "" type' filters' (v, w).
Proof.
  unfold EnhancedViewer.fetchDocuments, EnhancedViewer.fetch_body.
  change (Js.truthy_str "") with false.
  destruct (Js.truthy_str search); split; reflexivity.
Qed.

(* ===================================================================== *)
(** ** The where object and the filter rows                               *)
(* ===================================================================== *)

Section WhereObject.
Import EnhancedViewer FilterForm.

Lemma add_clause_spec (acc : Filter) (f : FilterClause) :
  add_clause acc f
  = if contributes f then <[f_field f := condition f]> acc else acc.
Proof.
  unfold add_clause, contributes, condition, assign.
  destruct (Js.truthy_str (f_field f)), (Js.truthy_str (f_value f)),
    (String.eqb (f_operator f) "equals"),
    (String.eqb (f_operator f) "contains"),
    (String.eqb (f_operator f) "greater"),
    (String.eqb (f_operator f) "less"),
    (String.eqb (f_field f) "__proto__"); reflexivity.
Qed.

Lemma fold_clauses_lookup (fs : list FilterClause) (acc : Filter) (k : string) :
  fold_left add_clause fs acc !! k
  = match last (List.filter
                  (fun f => contributes f && String.eqb (f_field f) k) fs) with
    | Some f => Some (condition f)
    | None => acc !! k
    end.
Proof.
  induction fs as [|f fs IH] using rev_ind; [reflexivity|].
  rewrite fold_left_app, List.filter_app. cbn [fold_left List.filter].
  rewrite add_clause_spec.
  destruct (contributes f) eqn:Ec; cbn [andb].
  - destruct (String.eqb_spec (f_field f) k) as [->|Hne].
    + rewrite last_snoc. apply lookup_insert_eq.
    + rewrite app_nil_r, lookup_insert_ne by done. apply IH.
  - rewrite app_nil_r. apply IH.
Qed.

Lemma no_keys_iff_empty (m : Filter) : keys m = [] <-> m = ∅.
Proof.
  unfold keys. split.
  - intros H. apply map_to_list_empty_iff.
    by destruct (map_to_list m).
  - intros ->. by rewrite map_to_list_empty.
Qed.

End WhereObject.

(** X13: the where object built from the filter rows maps a key to the
    condition of the last row that contributes under that key, and has no
    entry for a key under which no row contributes.  A row contributes
    when its field and value are not empty and its operator is equals,
    contains, greater or less (the field ['__proto__'] aside); its
    condition is the value itself for equals, and [{$contains: value}],
    [{$gt: value}], [{$lt: value}] for the others. *)
Theorem where_object_is_last_condition_per_field
    (filters : list EnhancedViewer.FilterClause) (k : string) :
  EnhancedViewer.build_where filters !! k
  = FilterForm.condition
    <$> last (List.filter
                (fun f => FilterForm.contributes f
                          && String.eqb (EnhancedViewer.f_field f) k) filters).
Proof.
  unfold EnhancedViewer.build_where. rewrite fold_clauses_lookup.
  by destruct (last _).
Qed.

Lemma build_where_lookup
    (filters : list EnhancedViewer.FilterClause) (k : string) :
  EnhancedViewer.build_where filters !! k
  = FilterForm.condition
    <$> last (List.filter
                (fun f => FilterForm.contributes f
                          && String.eqb (EnhancedViewer.f_field f) k) filters).
Proof.
  unfold EnhancedViewer.build_where. rewrite fold_clauses_lookup.
  by destruct (last _).
Qed.

Lemma where_arg_none_iff (filters : list EnhancedViewer.FilterClause) :
  (EnhancedViewer.where_arg (EnhancedViewer.build_where filters) = None
   <-> Forall (fun f => FilterForm.contributes f = false) filters)
  /\ (EnhancedViewer.where_arg (EnhancedViewer.build_where filters) = None
      \/ EnhancedViewer.where_arg (EnhancedViewer.build_where filters)
         = Some (EnhancedViewer.build_where filters)).
Proof.
  assert (Hempty : EnhancedViewer.build_where filters = ∅
                   <-> Forall (fun f => FilterForm.contributes f = false) filters).
  { split.
    - intros He. apply Forall_forall. intros f Hin.
      destruct (FilterForm.contributes f) eqn:Ec; [|done].
      pose proof (build_where_lookup filters
                    (EnhancedViewer.f_field f)) as Hl.
      rewrite He, lookup_empty in Hl.
      assert (Hin' : In f (List.filter
                (fun g => FilterForm.contributes g
                          && String.eqb (EnhancedViewer.f_field g)
                                        (EnhancedViewer.f_field f)) filters)).
      { apply filter_In. split; [by apply list_elem_of_In|].
        by rewrite Ec, String.eqb_refl. }
      destruct (List.filter _ filters) as [|x l] eqn:El using rev_ind;
        [destruct Hin'|].
      rewrite last_snoc in Hl. discriminate.
    - intros Hall. apply map_eq. intros k.
      rewrite build_where_lookup, lookup_empty.
      assert (List.filter
                (fun f => FilterForm.contributes f
                          && String.eqb (EnhancedViewer.f_field f) k) filters = [])
        as ->; [|done].
      induction Hall as [|f fs Hf _ IH]; [done|].
      cbn. by rewrite Hf. }
  split.
  - rewrite <- Hempty, <- no_keys_iff_empty.
    unfold EnhancedViewer.where_arg.
    destruct (EnhancedViewer.keys _); cbn; split; (done || discriminate).
  - unfold EnhancedViewer.where_arg.
    destruct (0 <? _)%nat; [by right|by left].
Qed.

(** X14: with a search term that is not empty, the metadata search sends
    a get request whose where filter is present exactly when some row
    contributes, and is then the whole where object; when no row
    contributes (no rows, rows with an empty field or value, with an
    unknown operator or with the field ['__proto__']) the filter is
    omitted.  With an empty search term
    the request is the plain listing of the page, without a where filter,
    whatever the rows.  The request is sent as soon as the collection
    lookup has succeeded. *)
Theorem where_filter_sent_iff_some_row_contributes
    (filters : list EnhancedViewer.FilterClause)
    (c : Remote.ChromaClient) (conn : option ChromaConnection) (name : string)
    (page : Z) (search : string) (v : ViewerState) (w : Remote.World) :
  let s := {| Service.client := Some c; Service.connection := conn |} in
  let offset := ((page - 1) * Z.of_nat documentsPerPage)%Z in
  let sent := if Js.truthy_str search
              then EnhancedViewer.metadata_args filters documentsPerPage offset
              else EnhancedViewer.list_args documentsPerPage offset in
  (EnhancedViewer.where_arg (EnhancedViewer.build_where filters) = None
   <-> Forall (fun f => FilterForm.contributes f = false) filters)
  /\ (EnhancedViewer.where_arg (EnhancedViewer.build_where filters) = None
      \/ EnhancedViewer.where_arg (EnhancedViewer.build_where filters)
         = Some (EnhancedViewer.build_where filters))
  /\ Remote.ga_where (EnhancedViewer.metadata_args filters documentsPerPage offset)
     = EnhancedViewer.where_arg (EnhancedViewer.build_where filters)
  /\ Remote.ga_where (EnhancedViewer.list_args documentsPerPage offset) = None
  /\ match Remote.getCollection c name w with
     | (Returned h, w1) =>
         exists rest,
           Remote.calls (snd (EnhancedViewer.fetchDocuments s name page search
                                EnhancedViewer.MetadataSearch filters (v, w)))
           = (Remote.calls w1 ++ Remote.Get (Remote.h_name h) sent :: rest)%list
     | (Threw _, w1) =>
         Remote.calls (snd (EnhancedViewer.fetchDocuments s name page search
                              EnhancedViewer.MetadataSearch filters (v, w)))
         = Remote.calls w1
     end.
Proof.
  intros s offset sent.
  destruct (where_arg_none_iff filters) as [H1 H2].
  split; [exact H1|]. split; [exact H2|]. split; [reflexivity|].
  split; [reflexivity|].
  unfold sent, offset, s, EnhancedViewer.fetchDocuments,
    EnhancedViewer.fetch_body, fetch_frame, try_finally, try_catch, bind,
    open_collection, lift, modify, Service.getClient.
  cbv beta zeta. cbn [fst snd Service.client].
  destruct (Remote.getCollection c name w) as [[h|e] w1]; cbn [fst snd];
    [|reflexivity].
  destruct (Js.truthy_str search); cbv beta iota zeta; cbn [fst snd];
    lazymatch goal with
    | |- context [Remote.get h ?a w1] =>
        pose proof (get_world h a w1) as Hg;
        destruct (Remote.get h a w1) as [[g|e] w2]
    end; cbn [fst snd] in *; subst w2;
    try (exists []; reflexivity);
    lazymatch goal with
    | |- context [Remote.count h ?x] =>
        pose proof (count_world h x) as Hn;
        destruct (Remote.count h x) as [[n|e] w3]
    end; cbn [fst snd] in *; subst w3;
    exists [Remote.Count (Remote.h_name h)];
    cbn [Remote.calls Remote.record_call]; by rewrite <- app_assoc.
Qed.

Section FilterRows.
Import EnhancedViewer FilterForm.

Lemma filter_by_index_ext {A : Type} (keep keep' : nat -> bool) (l : list A) :
  forall j, (forall i, j <= i -> keep i = keep' i) ->
            filter_by_index keep j l = filter_by_index keep' j l.
Proof.
  induction l as [|x l IH]; intros j H; cbn; [done|].
  rewrite (H j) by lia. rewrite (IH (S j)); [done|].
  intros i Hi. apply H. lia.
Qed.

Lemma filter_by_index_all {A : Type} (keep : nat -> bool) (l : list A) :
  forall j, (forall i, j <= i -> keep i = true) -> filter_by_index keep j l = l.
Proof.
  induction l as [|x l IH]; intros j H; cbn; [done|].
  rewrite (H j) by lia. f_equal. apply IH. intros i Hi. apply H. lia.
Qed.

Lemma filter_by_index_skip {A : Type} (l : list A) :
  forall j n,
    filter_by_index (fun i => negb (Nat.eqb i (j + n))) j l
    = (take n l ++ drop (S n) l)%list.
Proof.
  induction l as [|x l IH]; intros j n; cbn.
  - by destruct n.
  - destruct n as [|n].
    + rewrite Nat.add_0_r, Nat.eqb_refl. cbn.
      rewrite drop_0. apply filter_by_index_all.
      intros i Hi. apply negb_true_iff, Nat.eqb_neq. lia.
    + assert (Nat.eqb j (j + S n) = false) as -> by (apply Nat.eqb_neq; lia).
      cbn. f_equal. rewrite <- (IH (S j) n).
      apply filter_by_index_ext. intros i _. do 2 f_equal. lia.
Qed.

End FilterRows.

(** X15: removing filter row [index] keeps the rows before and after it
    in order; an index past the end removes nothing; a row just added is
    blank, so it leaves the where object as it was, and removing it again
    gives back the rows there were. *)
Theorem filter_rows_add_and_remove
    (rows : list EnhancedViewer.FilterClause) (index beyond : nat) :
  FilterForm.removeMetadataFilter index rows
  = (take index rows ++ drop (S index) rows)%list
  /\ FilterForm.removeMetadataFilter (length rows + beyond) rows = rows
  /\ length (FilterForm.addMetadataFilter rows) = S (length rows)
  /\ EnhancedViewer.build_where (FilterForm.addMetadataFilter rows)
     = EnhancedViewer.build_where rows
  /\ FilterForm.removeMetadataFilter (length rows)
       (FilterForm.addMetadataFilter rows) = rows.
Proof.
  assert (H : forall i l, FilterForm.removeMetadataFilter i l
                          = (take i l ++ drop (S i) l)%list).
  { intros i l. unfold FilterForm.removeMetadataFilter.
    apply (filter_by_index_skip l 0 i). }
  split; [apply H|]. split; [|split; [|split]].
  - rewrite H, take_ge, drop_ge by lia. apply app_nil_r.
  - unfold FilterForm.addMetadataFilter. rewrite length_app. cbn. lia.
  - unfold FilterForm.addMetadataFilter, EnhancedViewer.build_where.
    rewrite fold_left_app. reflexivity.
  - rewrite H. unfold FilterForm.addMetadataFilter.
    rewrite take_app_length, drop_ge by (rewrite length_app; cbn; lia).
    apply app_nil_r.
Qed.

(* ===================================================================== *)
(** ** Pagination                                                         *)
(* ===================================================================== *)

Section PaginationFacts.
Import Pagination.

Lemma totalPages_bounds (total : nat) :
  total <= totalPages total * 20 /\ totalPages total * 20 < total + 20.
Proof.
  unfold totalPages, documentsPerPage.
  pose proof (Nat.div_mod_eq total 20) as Hd.
  pose proof (Nat.mod_upper_bound total 20 ltac:(lia)) as Hm.
  destruct (Nat.eqb_spec (total mod 20) 0); lia.
Qed.

Lemma page_button_range (pages p : nat) :
  existsb (Nat.eqb p) (page_buttons pages) = true -> 1 <= p <= pages.
Proof.
  intros H. apply existsb_exists in H as (x & Hin & Hx).
  apply Nat.eqb_eq in Hx. subst x.
  unfold page_buttons in Hin. apply in_map_iff in Hin as (i & <- & Hi).
  apply in_seq in Hi. lia.
Qed.

End PaginationFacts.

(** X16: the number of pages is just enough for the total: the pages
    hold at least [total] documents, the last page is not empty, and
    there is no page exactly when there is no document. *)
Theorem total_pages_cover_the_total (total : nat) :
  total <= Pagination.totalPages total * documentsPerPage
  /\ Pagination.totalPages total * documentsPerPage < total + documentsPerPage
  /\ (Pagination.totalPages total =? 0)%nat = (total =? 0)%nat.
Proof.
  pose proof (totalPages_bounds total) as [H1 H2].
  unfold documentsPerPage. split; [exact H1|]. split; [exact H2|].
  destruct (Nat.eqb_spec (Pagination.totalPages total) 0),
    (Nat.eqb_spec total 0); (done || lia).
Qed.

(** X17: the pagination controls keep the current page among the pages.
    If the current page lies between 1 and the number of pages, every
    control that is available (Previous unless on page 1, Next unless on
    the last page, a numbered button among the first five pages) leads to
    a page in that range, and the offset requested for it falls inside
    the collection. *)
Theorem pagination_stays_in_range
    (total : nat) (currentPage : Z) (c : Pagination.Click) :
  (1 <= currentPage <= Z.of_nat (Pagination.totalPages total))%Z ->
  Pagination.available currentPage (Pagination.totalPages total) c = true ->
  (1 <= Pagination.handlePageChange currentPage c
   <= Z.of_nat (Pagination.totalPages total))%Z
  /\ (0 <= Pagination.offset_of (Pagination.handlePageChange currentPage c)
      < Z.of_nat total)%Z.
Proof.
  intros Hp Ha.
  pose proof (totalPages_bounds total) as [H1 H2].
  assert (Hnew : (1 <= Pagination.handlePageChange currentPage c
                  <= Z.of_nat (Pagination.totalPages total))%Z).
  { unfold Pagination.available in Ha.
    apply andb_true_iff in Ha as [_ Ha].
    destruct c as [| |p]; cbn in *.
    - apply negb_true_iff, Z.eqb_neq in Ha. lia.
    - apply negb_true_iff, Z.eqb_neq in Ha. lia.
    - apply page_button_range in Ha. lia. }
  split; [exact Hnew|].
  unfold Pagination.offset_of, documentsPerPage. lia.
Qed.

Lemma pagination_stays_in_range_witness :
  (1 <= Pagination.handlePageChange 3 Pagination.Next
   <= Z.of_nat (Pagination.totalPages 95))%Z
  /\ (0 <= Pagination.offset_of (Pagination.handlePageChange 3 Pagination.Next)
      < Z.of_nat 95)%Z.
Proof.
  apply (pagination_stays_in_range 95 3 Pagination.Next).
  - vm_compute. split; discriminate.
  - reflexivity.
Defined.

(** X18: for a current page among the pages, the caption of the basic
    viewer names a range that is not empty, lies inside the collection
    and spans at most one page. *)
Theorem caption_range_is_inside
    (total : nat) (currentPage : Z) :
  (1 <= currentPage <= Z.of_nat (Pagination.totalPages total))%Z ->
  (1 <= Pagination.showing_from currentPage
   <= Pagination.showing_to currentPage total)%Z
  /\ (Pagination.showing_to currentPage total <= Z.of_nat total)%Z
  /\ (Pagination.showing_to currentPage total
      - Pagination.showing_from currentPage
      < Z.of_nat documentsPerPage)%Z
  /\ Pagination.showing_from currentPage
     = (Pagination.offset_of currentPage + 1)%Z.
Proof.
  intros Hp. pose proof (totalPages_bounds total) as [H1 H2].
  unfold Pagination.showing_from, Pagination.showing_to, Pagination.offset_of,
    documentsPerPage.
  lia.
Qed.

Lemma caption_range_is_inside_witness :
  (1 <= Pagination.showing_from 5 <= Pagination.showing_to 5 95)%Z
  /\ (Pagination.showing_to 5 95 <= Z.of_nat 95)%Z
  /\ (Pagination.showing_to 5 95 - Pagination.showing_from 5
      < Z.of_nat documentsPerPage)%Z
  /\ Pagination.showing_from 5 = (Pagination.offset_of 5 + 1)%Z.
Proof.
  apply (caption_range_is_inside 95 5).
  vm_compute. split; discriminate.
Defined.

(* ===================================================================== *)
(** ** Recent queries                                                     *)
(* ===================================================================== *)

(** X19: the list of recent queries keeps its shape: if it has no
    duplicates and at most five entries, then after a successful query it
    still has no duplicates and at most five entries, it contains the
    query text, and a text that was not there before is now first. *)
Theorem recent_queries_stay_short_and_distinct
    (queryText : string) (queryHistory : list string) :
  NoDup queryHistory ->
  length queryHistory <= 5 ->
  NoDup (QueryForm.remember queryText queryHistory)
  /\ length (QueryForm.remember queryText queryHistory) <= 5
  /\ In queryText (QueryForm.remember queryText queryHistory)
  /\ (In queryText queryHistory
      \/ head (QueryForm.remember queryText queryHistory) = Some queryText).
Proof.
  intros Hnd Hlen. unfold QueryForm.remember.
  destruct (existsb (String.eqb queryText) queryHistory) eqn:E.
  - apply existsb_exists in E as (x & Hin & Hx).
    apply String.eqb_eq in Hx. subst x. by repeat split; [..|left].
  - assert (Hnot : ~ In queryText queryHistory).
    { intros Hin.
      assert (existsb (String.eqb queryText) queryHistory = true) as Ht.
      { apply existsb_exists. exists queryText.
        split; [done|apply String.eqb_refl]. }
      congruence. }
    split; [|split; [|split]].
    + apply NoDup_cons. split.
      * intros Hin. apply Hnot. apply list_elem_of_In.
        by apply (subseteq_take 4 queryHistory).
      * apply (sublist_NoDup (take 4 queryHistory) queryHistory);
          first [apply sublist_take | exact Hnd].
    + cbn. rewrite length_take. lia.
    + by left.
    + by right.
Qed.

Lemma recent_queries_stay_short_and_distinct_witness :
  NoDup (QueryForm.remember "f" ["a"; "b"; "c"; "d"; "e"])
  /\ length (QueryForm.remember "f" ["a"; "b"; "c"; "d"; "e"]) <= 5
  /\ In "f" (QueryForm.remember "f" ["a"; "b"; "c"; "d"; "e"])
  /\ (In "f" ["a"; "b"; "c"; "d"; "e"]
      \/ head (QueryForm.remember "f" ["a"; "b"; "c"; "d"; "e"]) = Some "f").
Proof.
  apply (recent_queries_stay_short_and_distinct "f" ["a"; "b"; "c"; "d"; "e"]).
  - apply (bool_decide_unpack _). vm_compute. exact I.
  - vm_compute. lia.
Defined.

(* ===================================================================== *)
(** ** The collection browser                                             *)
(* ===================================================================== *)

Section BrowserFacts.
Import Remote.

Variables (s : Service.ChromaDBService) (c : ChromaClient).
Hypothesis Hclient : Service.client s = Some c.

Lemma getCollectionDetails_found (name : string) (w : World)
    (rc : RemoteCollection) :
  healthy w ->
  find_collection name (collections w) = Some rc ->
  Service.getCollectionDetails s name w
  = (Returned (detailed_view (now w) rc),
     record_call (Count name) (record_call (GetCollection c name) w)).
Proof using Hclient.
  intros Hh Hf.
  unfold Service.getCollectionDetails, Service.with_client, rethrow,
    try_catch, bind.
  rewrite Hclient. rewrite (getCollection_found c name w rc Hh Hf).
  rewrite (count_found name _ rc)
    by (first [exact Hf | by apply healthy_record_call]).
  unfold clock, ret, detailed_view.
  rewrite (find_collection_name _ _ _ Hf).
  cbn [now record_call h_metadata handle_of].
  by rewrite or_undefined_id.
Qed.

Lemma all_details_found (l : list Collection) (rcs : list RemoteCollection) :
  forall w,
    healthy w ->
    Forall2 (fun b rc => find_collection (col_name b) (collections w) = Some rc)
            l rcs ->
    exists w',
      Browser.all_details s l w = (Returned (map (detailed_view (now w)) rcs), w')
      /\ collections w' = collections w.
Proof using Hclient.
  intros w Hh H. revert w Hh H.
  induction l as [|b l IH] in rcs |- *; intros w Hh H.
  - apply Forall2_nil_inv_l in H as ->. by exists w.
  - apply Forall2_cons_inv_l in H as (rc & rcs' & Hb & Hrest & ->).
    set (w1 := record_call (Count (col_name b))
                 (record_call (GetCollection c (col_name b)) w)).
    destruct (IH rcs' w1) as (w' & Hall & Hcols).
    + by repeat apply healthy_record_call.
    + exact Hrest.
    + exists w'. split; [|exact Hcols].
      cbn [Browser.all_details]. unfold bind, Browser.detail_or_basic, try_catch.
      rewrite (getCollectionDetails_found _ w rc Hh Hb).
      fold w1. rewrite Hall. reflexivity.
Qed.

Lemma find_collection_nodup (cols : list RemoteCollection) (rc : RemoteCollection) :
  NoDup (map rc_name cols) ->
  rc ∈ cols ->
  find_collection (rc_name rc) cols = Some rc.
Proof.
  unfold find_collection.
  induction cols as [|x cols IH]; intros Hnd Hin; [by apply elem_of_nil in Hin|].
  cbn in Hnd. apply NoDup_cons in Hnd as [Hx Hnd].
  cbn. apply elem_of_cons in Hin as [->|Hin].
  - by rewrite String.eqb_refl.
  - destruct (String.eqb_spec (rc_name x) (rc_name rc)) as [Heq|_].
    + exfalso. apply Hx. rewrite Heq. by apply list_elem_of_fmap_2.
    + by apply IH.
Qed.

End BrowserFacts.

(** X21: with a client installed, a healthy network and collection names
    that are all different, the collection browser ends its fetch with no
    error, loading off, and one entry per collection of the page listed
    (the first hundred), in order, under its name and with its real
    number of documents: the zero counts of getCollections are replaced
    by those of getCollectionDetails. *)
Theorem browser_shows_real_counts
    (s : Service.ChromaDBService) (c : Remote.ChromaClient)
    (b : Browser.BrowserState) (w : Remote.World) :
  Service.client s = Some c ->
  healthy w ->
  NoDup (map Remote.rc_name (Remote.collections w)) ->
  fst (Browser.fetchCollections s (b, w))
  = {| Browser.collections :=
         map (detailed_view (Remote.now w))
             (take Remote.list_page (Remote.collections w));
       Browser.loading := false;
       Browser.error := None |}
  /\ map col_count (Browser.collections (fst (Browser.fetchCollections s (b, w))))
     = map (fun rc => length (Remote.rc_docs rc))
           (take Remote.list_page (Remote.collections w)).
Proof.
  intros Hc Hh Hnd.
  set (listed := take Remote.list_page (Remote.collections w)).
  assert (Hlist : Service.getCollections s w
    = (Returned (imap (fun index col =>
                         {| col_id := "collection_" +:+ pretty index;
                            col_name := Remote.h_name col;
                            col_count := 0;
                            col_metadata := Remote.h_metadata col;
                            col_createdAt := Remote.now w |})
                      (map Remote.handle_of listed)),
       Remote.record_call (Remote.ListCollections c) w)).
  { unfold Service.getCollections, Service.with_client, rethrow, try_catch, bind.
    rewrite Hc. unfold Remote.listCollections, Remote.rpc. rewrite Hh.
    reflexivity. }
  destruct (all_details_found s c Hc
              (imap (fun index col =>
                         {| col_id := "collection_" +:+ pretty index;
                            col_name := Remote.h_name col;
                            col_count := 0;
                            col_metadata := Remote.h_metadata col;
                            col_createdAt := Remote.now w |})
                      (map Remote.handle_of listed))
              listed
              (Remote.record_call (Remote.ListCollections c) w))
    as (w' & Hall & _).
  { by apply healthy_record_call. }
  { apply Forall2_same_length_lookup. split.
    - by rewrite length_imap, length_map.
    - intros i x rc Hx Hrc.
      rewrite list_lookup_imap, list_lookup_fmap, Hrc in Hx.
      cbn in Hx. injection Hx as <-. cbn [col_name Remote.h_name Remote.handle_of].
      apply find_collection_nodup; [exact Hnd|].
      apply (subseteq_take Remote.list_page).
      by apply list_elem_of_lookup_2 in Hrc. }
  assert (Hfetch : fst (Browser.fetchCollections s (b, w))
    = {| Browser.collections := map (detailed_view (Remote.now w)) listed;
         Browser.loading := false;
         Browser.error := None |}).
  { unfold Browser.fetchCollections, try_finally, try_catch, bind, lift, modify.
    cbn [fst snd]. rewrite Hlist. cbn [fst snd]. rewrite Hall.
    reflexivity. }
  split; [exact Hfetch|].
  rewrite Hfetch. cbn [Browser.collections].
  rewrite <- list_fmap_compose. reflexivity.
Qed.

Lemma browser_shows_real_counts_witness :
  map col_count
      (Browser.collections (fst (Browser.fetchCollections Samples.attached
                                   (Scenes.idle, Scenes.two_collections))))
  = [2; 0]%nat.
Proof.
  destruct (browser_shows_real_counts Samples.attached Samples.local Scenes.idle
              Scenes.two_collections) as [_ H].
  - reflexivity.
  - intros c. reflexivity.
  - apply (bool_decide_unpack _). vm_compute. exact I.
  - exact H.
Defined.



Section BrowserFallback.
Import Remote.

Variables (s : Service.ChromaDBService) (c : ChromaClient)
          (err : string -> Js.Thrown).
Hypothesis Hclient : Service.client s = Some c.

Lemma all_details_fall_back (l : list Collection) :
  forall w,
    (forall n, fault w (GetCollection c n) = Some (err n)) ->
    exists w', Browser.all_details s l w = (Returned l, w').
Proof using Hclient.
  induction l as [|b l IH]; intros w Hdown; [by exists w|].
  set (w1 := record_call (GetCollection c (col_name b)) w).
  destruct (IH w1) as (w' & Hall); [exact Hdown|].
  exists w'. cbn [Browser.all_details]. unfold bind, Browser.detail_or_basic, try_catch.
  unfold Service.getCollectionDetails, Service.with_client, rethrow,
    try_catch, bind.
  rewrite Hclient. unfold getCollection, rpc. rewrite Hdown.
  unfold throw, ret. fold w1. rewrite Hall. reflexivity.
Qed.

End BrowserFallback.

(** X23: a failure while fetching the details is silent.  With a client
    installed, when the listing succeeds and every getCollection lookup
    fails, the browser ends its fetch with no error and shows exactly the
    collections the listing returned, each with the count 0 of the
    listing. *)
Theorem browser_falls_back_to_zero_counts
    (s : Service.ChromaDBService) (c : Remote.ChromaClient)
    (err : string -> Js.Thrown)
    (b : Browser.BrowserState) (w : Remote.World) :
  Service.client s = Some c ->
  Remote.fault w (Remote.ListCollections c) = None ->
  (forall n, Remote.fault w (Remote.GetCollection c n) = Some (err n)) ->
  Browser.error (fst (Browser.fetchCollections s (b, w))) = None
  /\ Browser.loading (fst (Browser.fetchCollections s (b, w))) = false
  /\ Returned (Browser.collections (fst (Browser.fetchCollections s (b, w))))
     = fst (Service.getCollections s w)
  /\ map col_name (Browser.collections (fst (Browser.fetchCollections s (b, w))))
     = map Remote.rc_name (take Remote.list_page (Remote.collections w))
  /\ Forall (fun col => col_count col = 0%nat)
            (Browser.collections (fst (Browser.fetchCollections s (b, w)))).
Proof.
  intros Hc Hlist Hdown.
  set (basic := imap (fun index col =>
                         {| col_id := "collection_" +:+ pretty index;
                            col_name := Remote.h_name col;
                            col_count := 0;
                            col_metadata := Remote.h_metadata col;
                            col_createdAt := Remote.now w |})
                      (map Remote.handle_of
                           (take Remote.list_page (Remote.collections w)))).
  assert (Hget : Service.getCollections s w
                 = (Returned basic, Remote.record_call (Remote.ListCollections c) w)).
  { unfold Service.getCollections, Service.with_client, rethrow, try_catch, bind.
    rewrite Hc. unfold Remote.listCollections, Remote.rpc. rewrite Hlist.
    reflexivity. }
  destruct (all_details_fall_back s c err Hc basic
              (Remote.record_call (Remote.ListCollections c) w)) as (w' & Hall).
  { exact Hdown. }
  assert (Hfetch : fst (Browser.fetchCollections s (b, w))
                   = {| Browser.collections := basic; Browser.loading := false;
                        Browser.error := None |}).
  { unfold Browser.fetchCollections, try_finally, try_catch, bind, lift, modify.
    cbn [fst snd]. rewrite Hget. cbn [fst snd]. rewrite Hall. reflexivity. }
  rewrite Hfetch. cbn [Browser.error Browser.loading Browser.collections].
  split; [reflexivity|]. split; [reflexivity|].
  split; [by rewrite Hget|]. split.
  - unfold basic. apply list_eq. intros i.
    rewrite !list_lookup_fmap, list_lookup_imap, list_lookup_fmap.
    by destruct (take Remote.list_page (Remote.collections w) !! i).
  - unfold basic. apply Forall_lookup. intros i x Hx.
    rewrite list_lookup_imap in Hx.
    destruct (_ !! i); cbn in Hx; [|discriminate].
    by injection Hx as <-.
Qed.

Lemma browser_falls_back_to_zero_counts_witness :
  let w := Samples.world_of [Samples.greeting]
             (fun call => match call with
                          | Remote.GetCollection _ _ => Some (Js.ErrorObj "fetch failed")
                          | _ => None
                          end) Samples.engine0 in
  Browser.error (fst (Browser.fetchCollections Samples.attached (Scenes.idle, w)))
  = None
  /\ map col_count
         (Browser.collections (fst (Browser.fetchCollections Samples.attached
                                (Scenes.idle, w)))) = [0%nat].
Proof.
  intros w.
  destruct (browser_falls_back_to_zero_counts Samples.attached Samples.local
              (fun _ => Js.ErrorObj "fetch failed") Scenes.idle w)
    as (H & _ & _ & _ & _).
  - reflexivity.
  - reflexivity.
  - intros n. reflexivity.
  - split; [exact H|reflexivity].
Defined.

(* ===================================================================== *)
(** ** More on the placeholder embedding                                  *)
(* ===================================================================== *)

Section EmbeddingShape.
Import Embedding.

Lemma step_congruent (i : nat) (a b : N) (e : list N) :
  (a mod 1000 = b mod 1000)%N -> step i a e = step i b e.
Proof.
  intros H. unfold step. f_equal.
  rewrite (N.Div0.add_mod _ a), (N.Div0.add_mod _ b). by rewrite H.
Qed.

Lemma loop_congruent (t1 t2 : Text) :
  Forall2 (fun a b => (a mod 1000 = b mod 1000)%N) t1 t2 ->
  forall i e, loop i t1 e = loop i t2 e.
Proof.
  induction 1 as [|a b t1 t2 Hab _ IH]; intros i e; cbn; [done|].
  by rewrite (step_congruent i a b e Hab), IH.
Qed.

Lemma embed_short (text : Text) :
  length text <= 1536 ->
  embed text
  = (map (fun c => (c mod 1000)%N) text
     ++ replicate (1536 - length text) 0%N)%list.
Proof.
  induction text as [|c text IH] using rev_ind; intros Hlen.
  - reflexivity.
  - rewrite length_app in Hlen. cbn in Hlen.
    unfold embed in *. rewrite loop_snoc. rewrite IH by lia.
    unfold step, read. cbn [Nat.add].
    rewrite Nat.mod_small by lia.
    assert (Hk : 1536 - length text = S (1536 - length (text ++ [c]))).
    { rewrite length_app. cbn. lia. }
    rewrite Hk. cbn [replicate].
    rewrite lookup_app_r by (rewrite length_map; lia).
    rewrite length_map, Nat.sub_diag. cbn [lookup list_lookup default].
    rewrite N.add_0_l.
    rewrite insert_app_r_alt by (rewrite length_map; lia).
    rewrite length_map, Nat.sub_diag. cbn [insert list_insert].
    rewrite map_app. cbn [map]. by rewrite <- app_assoc.
Qed.

End EmbeddingShape.

(** X24: the embedding sees character codes only modulo 1000: two texts
    of the same length whose codes agree modulo 1000, position by
    position, have the same embedding. *)
Theorem embedding_sees_codes_modulo_1000 (t1 t2 : Embedding.Text) :
  Forall2 (fun a b => (a mod 1000 = b mod 1000)%N) t1 t2 ->
  Embedding.embed t1 = Embedding.embed t2
  /\ Embedding.generate [t1] = Embedding.generate [t2].
Proof.
  intros H. assert (He : Embedding.embed t1 = Embedding.embed t2).
  { unfold Embedding.embed. by apply loop_congruent. }
  split; [exact He|]. unfold Embedding.generate. cbn. by rewrite He.
Qed.

Lemma embedding_sees_codes_modulo_1000_witness :
  Embedding.embed [97; 1098]%N = Embedding.embed [1097; 98]%N
  /\ Embedding.generate [[97; 1098]%N] = Embedding.generate [[1097; 98]%N].
Proof.
  apply (embedding_sees_codes_modulo_1000 [97; 1098]%N [1097; 98]%N).
  repeat constructor.
Defined.

(** X25: a text of at most 1536 characters is embedded as its character
    codes modulo 1000, in order, followed by zeros up to length 1536. *)
Theorem embedding_of_short_text (text : Embedding.Text) :
  length text <= 1536 ->
  Embedding.embed text
  = (map (fun c => (c mod 1000)%N) text
     ++ replicate (1536 - length text) 0%N)%list.
Proof. apply embed_short. Qed.

Lemma embedding_of_short_text_witness :
  Embedding.embed (Embedding.code_units "hi")
  = (map (fun c => (c mod 1000)%N) (Embedding.code_units "hi")
     ++ replicate (1536 - length (Embedding.code_units "hi")) 0%N)%list.
Proof.
  apply (embedding_of_short_text (Embedding.code_units "hi")).
  cbn. lia.
Defined.
